(** * The weather agents' conversation core

    A shallow embedding of the classification, location-resolution and
    conversation-history code of [groq_weather_agent.py],
    [smart_weather_agent.py] and [simple_weather_agent.py], followed by the
    properties established for it.

    Conventions.  A Python [str] is a [string] whose characters are the code
    points below 256; [float] literals are binary64 values (as in CPython);
    a [dict] is an association list in insertion order; a call that may
    raise returns a [res]. *)

From Stdlib Require Import String Ascii List Bool NArith ZArith Arith Lia Floats.
Import ListNotations.
Set Warnings "-inexact-float,-register-all,-notation-for-abbreviation".
Open Scope string_scope.

(** ** Python strings *)

Module PyStr.

(** [str.lower] on one code point below 256: A-Z, and the Latin-1 capitals
    U+00C0..U+00DE other than the multiplication sign U+00D7. *)
Definition lower_char (c : ascii) : ascii :=
  let n := N_of_ascii c in
  if ((65 <=? n) && (n <=? 90) || (192 <=? n) && (n <=? 222) && negb (n =? 215))%N
  then ascii_of_N (n + 32)
  else c.

Fixpoint lower (s : string) : string :=
  match s with
  | EmptyString => EmptyString
  | String c s' => String (lower_char c) (lower s')
  end.

(** [sub in s]: [sub] occurs in [s] as a contiguous substring. *)
Fixpoint str_in (sub s : string) : bool :=
  prefix sub s ||
  match s with
  | EmptyString => false
  | String _ s' => str_in sub s'
  end.

(** [any(k in s for k in keys)]. *)
Definition any_in (keys : list string) (s : string) : bool :=
  existsb (fun k => str_in k s) keys.

(** [x in [k1, ..., kn]] for a list of strings. *)
Definition in_list (x : string) (l : list string) : bool :=
  existsb (String.eqb x) l.

(** [str.isspace] on one code point below 256. *)
Definition is_space (c : ascii) : bool :=
  let n := N_of_ascii c in
  ((9 <=? n) && (n <=? 13) || (28 <=? n) && (n <=? 32) || (n =? 133) || (n =? 160))%N.

Fixpoint lstrip (s : string) : string :=
  match s with
  | EmptyString => EmptyString
  | String c s' => if is_space c then lstrip s' else s
  end.

Fixpoint rstrip (s : string) : string :=
  match s with
  | EmptyString => EmptyString
  | String c s' =>
      match rstrip s' with
      | EmptyString => if is_space c then EmptyString else String c EmptyString
      | r => String c r
      end
  end.

Definition strip (s : string) : string := rstrip (lstrip s).

Definition is_ascii_lower (c : ascii) : bool :=
  let n := N_of_ascii c in ((97 <=? n) && (n <=? 122))%N.

Definition is_ascii_upper (c : ascii) : bool :=
  let n := N_of_ascii c in ((65 <=? n) && (n <=? 90))%N.

Definition upper_char (c : ascii) : ascii :=
  if is_ascii_lower c then ascii_of_N (N_of_ascii c - 32) else c.

(** [str.title] on ASCII text (it is applied to the gazetteer's keys only):
    a cased character is upper-cased after an uncased one and lower-cased
    after a cased one. *)
Fixpoint title_from (previous_is_cased : bool) (s : string) : string :=
  match s with
  | EmptyString => EmptyString
  | String c s' =>
      if is_ascii_lower c then
        String (if previous_is_cased then c else upper_char c) (title_from true s')
      else if is_ascii_upper c then
        String (if previous_is_cased then lower_char c else c) (title_from true s')
      else String c (title_from false s')
  end.

Definition title (s : string) : string := title_from false s.

(** Truth value of a string: empty is false. *)
Definition truthy (s : string) : bool :=
  match s with EmptyString => false | String _ _ => true end.

Definition nl : string := String (ascii_of_N 10) EmptyString.

End PyStr.

(** ** Python dicts: insertion-ordered, a repeated key keeps its first
    position and takes the last value written *)

Module PyDict.

Section Dict.
Context {V : Type}.

Definition dict := list (string * V).

Fixpoint setitem (k : string) (v : V) (d : dict) : dict :=
  match d with
  | [] => [(k, v)]
  | (k', v') :: d' =>
      if String.eqb k k' then (k', v) :: d' else (k', v') :: setitem k v d'
  end.

(** The dict a display [{k1: v1, ..., kn: vn}] evaluates to. *)
Definition of_literal (entries : list (string * V)) : dict :=
  fold_left (fun d kv => setitem (fst kv) (snd kv) d) entries [].

Fixpoint getitem (k : string) (d : dict) : option V :=
  match d with
  | [] => None
  | (k', v) :: d' => if String.eqb k k' then Some v else getitem k d'
  end.

End Dict.

Arguments dict V : clear implicits.

End PyDict.

(** ** Exceptions, and computations over the conversation history *)

Module PyExn.

(** An exception caught by [except Exception]; the code only ever formats
    it with [{e}]. *)
Inductive exn : Type :=
| KeyError (key : string)
| TypeError (msg : string)
| Exception (msg : string).

(** [str(e)]: a [KeyError] prints the [repr] of its key (here always one of
    the quote-free literal keys of the tool arguments). *)
Definition exn_str (e : exn) : string :=
  match e with
  | KeyError key => "'" ++ key ++ "'"
  | TypeError msg => msg
  | Exception msg => msg
  end.

Inductive res (A : Type) : Type :=
| Ret (a : A)
| Raise (e : exn).

Arguments Ret {A} a.
Arguments Raise {A} e.

Definition bind {A B : Type} (m : res A) (f : A -> res B) : res B :=
  match m with
  | Ret a => f a
  | Raise e => Raise e
  end.

(** [try: body  except Exception as e: handler(e)]. *)
Definition try_except {A : Type} (body : res A) (handler : exn -> res A) : res A :=
  match body with
  | Ret a => Ret a
  | Raise e => handler e
  end.

Fixpoint for_each {A B : Type} (f : A -> res B) (l : list A) : res (list B) :=
  match l with
  | [] => Ret []
  | x :: l' =>
      bind (f x) (fun y => bind (for_each f l') (fun ys => Ret (y :: ys)))
  end.

End PyExn.

Notation "x <- m ;; k" := (PyExn.bind m (fun x => k))
  (at level 61, m at next level, right associativity).

(** ** Messages exchanged with the chat-completion service *)

Module Chat.
Import PyExn.

Inductive role : Type := system | user | assistant | tool.

(** [tool_call.id], [tool_call.function.name], [tool_call.function.arguments]. *)
Record tool_call : Type := {
  call_id : string;
  function_name : string;
  function_arguments : string
}.

(** A message dict; an absent key is [None] (or the empty list). *)
Record message : Type := {
  msg_role : role;
  content : option string;
  tool_call_id : option string;
  tool_calls : list tool_call
}.

Definition text_message (r : role) (c : option string) : message :=
  {| msg_role := r; content := c; tool_call_id := None; tool_calls := [] |}.

(** [self.conversation_history]. *)
Definition history : Type := list message.

(** [l[-n:]]. *)
Definition last_n {A : Type} (n : nat) (l : list A) : list A :=
  skipn (length l - n) l.

(** A method of an agent: it reads and updates [conversation_history] and
    may raise; what it wrote before raising stays written. *)
Definition M (A : Type) : Type := history -> res A * history.

Definition ret {A : Type} (a : A) : M A := fun h => (Ret a, h).

Definition lift {A : Type} (r : res A) : M A := fun h => (r, h).

Definition mbind {A B : Type} (m : M A) (f : A -> M B) : M B :=
  fun h =>
    match m h with
    | (Ret a, h') => f a h'
    | (Raise e, h') => (Raise e, h')
    end.

Definition mtry {A : Type} (body : M A) (handler : exn -> M A) : M A :=
  fun h =>
    match body h with
    | (Ret a, h') => (Ret a, h')
    | (Raise e, h') => handler e h'
    end.

(** [self.conversation_history.append(m)]. *)
Definition append (m : message) : M unit := fun h => (Ret tt, (h ++ [m])%list).

Definition get_history : M history := fun h => (Ret h, h).

(** What [input("You: ")] yields in a chat loop. *)
Inductive stdin_event : Type :=
| Line (s : string)
| KeyboardInterrupt.

(** One call of the per-turn method made by a chat loop, with its outcome. *)
Inductive turn_event : Type :=
| Replied (user_input : string) (response : option string)
| Failed (user_input : string) (e : exn).

(** A run of a chat loop over the input read so far: whether the loop was
    left ([break]) and the calls it made, first to last. *)
Record session : Type := {
  ended : bool;
  turns : list turn_event
}.

Definition after (ev : turn_event) (s : session) : session :=
  {| ended := ended s; turns := ev :: turns s |}.

End Chat.

Notation "x <~ m ;; k" := (Chat.mbind m (fun x => k))
  (at level 61, m at next level, right associativity).
Notation "m ;;; k" := (Chat.mbind m (fun _ => k))
  (at level 61, right associativity).

(** ** [GroqWeatherAgent]: the rule-based agent *)

Module Groq.
Import PyStr PyDict PyExn Chat.

Definition coords : Type := float * float.

(** The display assigned to [self.city_coords], entry by entry. *)
Definition city_coords_literal : list (string * coords) := [
    ("new york", (40.7128, -74.0060));
    ("nyc", (40.7128, -74.0060));
    ("los angeles", (34.0522, -118.2437));
    ("la", (34.0522, -118.2437));
    ("chicago", (41.8781, -87.6298));
    ("houston", (29.7604, -95.3698));
    ("philadelphia", (39.9526, -75.1652));
    ("phoenix", (33.4484, -112.0740));
    ("san antonio", (29.4241, -98.4936));
    ("san diego", (32.7157, -117.1611));
    ("dallas", (32.7767, -96.7970));
    ("austin", (30.2672, -97.7431));
    ("san jose", (37.3382, -121.8863));
    ("fort worth", (32.7555, -97.3308));
    ("columbus", (39.9612, -82.9988));
    ("charlotte", (35.2271, -80.8431));
    ("indianapolis", (39.7684, -86.1581));
    ("san francisco", (37.7749, -122.4194));
    ("seattle", (47.6062, -122.3321));
    ("denver", (39.7392, -104.9903));
    ("washington", (38.9072, -77.0369));
    ("washington dc", (38.9072, -77.0369));
    ("dc", (38.9072, -77.0369));
    ("boston", (42.3601, -71.0589));
    ("nashville", (36.1627, -86.7816));
    ("baltimore", (39.2904, -76.6122));
    ("oklahoma city", (35.4676, -97.5164));
    ("portland", (45.5152, -122.6784));
    ("las vegas", (36.1699, -115.1398));
    ("milwaukee", (43.0389, -87.9065));
    ("albuquerque", (35.0844, -106.6504));
    ("tucson", (32.2226, -110.9747));
    ("fresno", (36.7378, -119.7871));
    ("sacramento", (38.5816, -121.4944));
    ("mesa", (33.4152, -111.8315));
    ("kansas city", (39.0997, -94.5786));
    ("atlanta", (33.7490, -84.3880));
    ("omaha", (41.2565, -95.9345));
    ("colorado springs", (38.8339, -104.8214));
    ("raleigh", (35.7796, -78.6382));
    ("miami", (25.7617, -80.1918));
    ("cleveland", (41.4993, -81.6944));
    ("tulsa", (36.1540, -95.9928));
    ("minneapolis", (44.9778, -93.2650));
    ("wichita", (37.6872, -97.3301));
    ("arlington", (32.7357, -97.1081));
    ("new orleans", (29.9511, -90.0715));
    ("bakersfield", (35.3733, -119.0187));
    ("tampa", (27.9506, -82.4572));
    ("honolulu", (21.3099, -157.8581));
    ("anaheim", (33.8366, -117.9143));
    ("santa ana", (33.7455, -117.8677));
    ("corpus christi", (27.8006, -97.3964));
    ("riverside", (33.9533, -117.3961));
    ("lexington", (38.0406, -84.5037));
    ("pittsburgh", (40.4406, -79.9959));
    ("st. louis", (38.6270, -90.1994));
    ("saint louis", (38.6270, -90.1994));
    ("cincinnati", (39.1031, -84.5120));
    ("anchorage", (61.2181, -149.9003));
    ("stockton", (37.9577, -121.2908));
    ("toledo", (41.6528, -83.5379));
    ("st. paul", (44.9537, -93.0900));
    ("saint paul", (44.9537, -93.0900));
    ("newark", (40.7357, -74.1724));
    ("greensboro", (36.0726, -79.7920));
    ("plano", (33.0198, -96.6989));
    ("henderson", (36.0395, -114.9817));
    ("lincoln", (40.8136, -96.7026));
    ("buffalo", (42.8864, -78.8784));
    ("jersey city", (40.7178, -74.0431));
    ("chula vista", (32.6401, -117.0842));
    ("fort wayne", (41.0793, -85.1394));
    ("orlando", (28.5383, -81.3792));
    ("st. petersburg", (27.7676, -82.6403));
    ("saint petersburg", (27.7676, -82.6403));
    ("chandler", (33.3062, -111.8413));
    ("laredo", (27.5806, -99.4803));
    ("norfolk", (36.9068, -76.2859));
    ("durham", (35.9940, -78.8986));
    ("madison", (43.0731, -89.4012));
    ("lubbock", (33.5779, -101.8552));
    ("irvine", (33.6846, -117.8265));
    ("winston-salem", (36.0999, -80.2442));
    ("glendale", (33.5387, -112.1860));
    ("garland", (32.9126, -96.6389));
    ("hialeah", (25.8576, -80.2781));
    ("reno", (39.5296, -119.8138));
    ("chesapeake", (36.7682, -76.2875));
    ("gilbert", (33.3528, -111.7890));
    ("baton rouge", (30.4515, -91.1871));
    ("irving", (32.8140, -96.9489));
    ("scottsdale", (33.4942, -111.9261));
    ("north las vegas", (36.1989, -115.1175));
    ("fremont", (37.5485, -121.9886));
    ("boise", (43.6150, -116.2023));
    ("richmond", (37.5407, -77.4360));
    ("san bernardino", (34.1083, -117.2898));
    ("birmingham", (33.5186, -86.8104));
    ("spokane", (47.6587, -117.4260));
    ("rochester", (43.1566, -77.6088));
    ("des moines", (41.5868, -93.6250));
    ("modesto", (37.6391, -120.9969));
    ("fayetteville", (35.0527, -78.8784));
    ("tacoma", (47.2529, -122.4443));
    ("oxnard", (34.1975, -119.1771));
    ("fontana", (34.0922, -117.4350));
    ("columbus", (32.4609, -84.9877));
    ("montgomery", (32.3668, -86.3000));
    ("moreno valley", (33.9425, -117.2297));
    ("shreveport", (32.5252, -93.7502));
    ("aurora", (39.7294, -104.8319));
    ("yonkers", (40.9312, -73.8988));
    ("akron", (41.0814, -81.5190));
    ("huntington beach", (33.7091, -118.0067));
    ("little rock", (34.7465, -92.2896));
    ("augusta", (33.4735, -82.0105));
    ("amarillo", (35.2220, -101.8313));
    ("glendale", (34.1425, -118.2551));
    ("mobile", (30.6954, -88.0399));
    ("grand rapids", (42.9634, -85.6681));
    ("salt lake city", (40.7608, -111.8910));
    ("tallahassee", (30.4518, -84.2807));
    ("huntsville", (34.7304, -86.5861));
    ("grand prairie", (32.7460, -96.9978));
    ("knoxville", (35.9606, -83.9207));
    ("worcester", (42.2626, -71.8023));
    ("newport news", (37.0871, -76.4730));
    ("brownsville", (25.9018, -97.4975));
    ("overland park", (38.9822, -94.6708));
    ("santa clarita", (34.3917, -118.5426));
    ("providence", (41.8240, -71.4128));
    ("garden grove", (33.7739, -117.9414));
    ("chattanooga", (35.0456, -85.3097));
    ("oceanside", (33.1959, -117.3795));
    ("jackson", (32.2988, -90.1848));
    ("fort lauderdale", (26.1224, -80.1373));
    ("santa rosa", (38.4404, -122.7144));
    ("rancho cucamonga", (34.1064, -117.5931));
    ("port st. lucie", (27.2730, -80.3582));
    ("tempe", (33.4255, -111.9400));
    ("ontario", (34.0633, -117.6509));
    ("vancouver", (45.6387, -122.6615));
    ("cape coral", (26.5629, -81.9495));
    ("sioux falls", (43.5446, -96.7311));
    ("springfield", (37.2153, -93.2982));
    ("peoria", (40.6936, -89.5890));
    ("pembroke pines", (26.0070, -80.2962));
    ("elk grove", (38.4088, -121.3716));
    ("salem", (44.9429, -123.0351));
    ("lancaster", (34.6868, -118.1542));
    ("corona", (33.8753, -117.5664));
    ("eugene", (44.0521, -123.0868));
    ("palmdale", (34.5794, -118.1165));
    ("salinas", (36.6777, -121.6555));
    ("springfield", (39.7817, -89.6501));
    ("pasadena", (34.1478, -118.1445));
    ("fort collins", (40.5853, -105.0844));
    ("hayward", (37.6688, -122.0808));
    ("pomona", (34.0552, -117.7500));
    ("cary", (35.7915, -78.7811));
    ("rockford", (42.2711, -89.0940));
    ("alexandria", (38.8048, -77.0469));
    ("escondido", (33.1192, -117.0864));
    ("mckinney", (33.1973, -96.6397));
    ("kansas city", (39.1142, -94.6275));
    ("joliet", (41.5250, -88.0817));
    ("sunnyvale", (37.3688, -122.0363))
]%float.

Definition city_coords : dict coords := of_literal city_coords_literal.

(** The display assigned to [self.state_codes]. *)
Definition state_codes_literal : list (string * string) := [
    ("alabama", "AL"); ("alaska", "AK"); ("arizona", "AZ"); ("arkansas", "AR");
    ("california", "CA"); ("ca", "CA");
    ("colorado", "CO"); ("connecticut", "CT"); ("delaware", "DE"); ("florida", "FL"); ("georgia", "GA");
    ("hawaii", "HI"); ("idaho", "ID"); ("illinois", "IL"); ("indiana", "IN"); ("iowa", "IA");
    ("kansas", "KS"); ("kentucky", "KY"); ("louisiana", "LA"); ("maine", "ME"); ("maryland", "MD");
    ("massachusetts", "MA"); ("michigan", "MI"); ("minnesota", "MN"); ("mississippi", "MS"); ("missouri", "MO");
    ("montana", "MT"); ("nebraska", "NE"); ("nevada", "NV"); ("new hampshire", "NH"); ("new jersey", "NJ");
    ("new mexico", "NM"); ("new york", "NY"); ("north carolina", "NC"); ("north dakota", "ND"); ("ohio", "OH");
    ("oklahoma", "OK"); ("oregon", "OR"); ("pennsylvania", "PA"); ("rhode island", "RI"); ("south carolina", "SC");
    ("south dakota", "SD"); ("tennessee", "TN"); ("texas", "TX"); ("utah", "UT"); ("vermont", "VT");
    ("virginia", "VA"); ("washington", "WA"); ("west virginia", "WV"); ("wisconsin", "WI"); ("wyoming", "WY")
].

Definition state_codes : dict string := of_literal state_codes_literal.

(** The loop of [extract_location_from_text] over [city_coords.items()]. *)
Fixpoint first_city (items : dict coords) (text_lower : string)
  : option (string * coords) :=
  match items with
  | [] => None
  | (city, xy) :: rest =>
      if str_in city text_lower then Some (title city, xy)
      else first_city rest text_lower
  end.

Definition extract_location_from_text (text : string) : option (string * coords) :=
  first_city city_coords (lower text).

(** The loop of [extract_state_from_text] over [state_codes.items()]: the
    state's name is tried first, then its lower-cased code. *)
Fixpoint first_state (items : dict string) (text_lower : string) : option string :=
  match items with
  | [] => None
  | (state_name, state_code) :: rest =>
      if str_in state_name text_lower then Some state_code
      else if str_in (lower state_code) text_lower then Some state_code
      else first_state rest text_lower
  end.

Definition extract_state_from_text (text : string) : option string :=
  first_state state_codes (lower text).

Definition weather_keywords : list string :=
  ["weather"; "temperature"; "temp"; "forecast"; "rain"; "snow"; "sunny";
   "cloudy"; "hot"; "cold"; "storm"].

Definition alert_keywords : list string :=
  ["alert"; "warning"; "watch"; "advisory"; "severe"; "emergency"; "danger"].

(** The dict returned by [is_weather_query], by its ["type"]. *)
Inductive query_info : Type :=
| QAlert (state : string)
| QForecast (city : string) (xy : coords)
| QNone.

Definition has_weather (text : string) : bool :=
  any_in weather_keywords (lower text).

Definition has_alert (text : string) : bool :=
  any_in alert_keywords (lower text).

(** The guard of the alert branch. *)
Definition alert_guard (text : string) : bool :=
  has_alert text || (has_weather text && any_in ["alert"; "warning"] (lower text)).

(** What follows the alert branch when it does not return: the forecast
    branch, then the final [{"type": None}]. *)
Definition forecast_branch (text : string) : query_info :=
  if has_weather text then
    match extract_location_from_text text with
    | Some (city_name, xy) => QForecast city_name xy
    | None => QNone
    end
  else QNone.

Definition is_weather_query (text : string) : query_info :=
  if alert_guard text then
    match extract_state_from_text text with
    | Some state => if truthy state then QAlert state else forecast_branch text
    | None => forecast_branch text
    end
  else forecast_branch text.

(** The three external calls of one turn: the two weather-server functions
    and [client.chat.completions.create(...).choices[0].message.content]. *)
Record env : Type := {
  get_alerts : string -> res string;
  get_forecast : float -> float -> res string;
  create : list message -> res (option string)
}.

Definition get_weather_data (E : env) (query_info : query_info) : res string :=
  try_except
    (match query_info with
     | QAlert state =>
         result <- get_alerts E state ;;
         Ret ("Weather alerts for " ++ state ++ ":" ++ nl ++ result)
     | QForecast city (lat, lng) =>
         result <- get_forecast E lat lng ;;
         Ret ("Weather forecast for " ++ city ++ ":" ++ nl ++ result)
     | QNone => Ret "I couldn't process that weather request."
     end)
    (fun e => Ret ("Sorry, I couldn't fetch the weather data: " ++ exn_str e)).

Definition system_message : string :=
"You are a helpful AI assistant with access to real-time US weather data. 
        
When users ask about weather, you can provide current forecasts and alerts for US locations.
Be conversational, friendly, and helpful. If weather data is provided, incorporate it naturally into your response.
If asked about non-US locations, politely explain that you only have access to US weather data.

Keep responses concise but informative.".

(** [self.conversation_history[-10:] if len(...) > 10 else self.conversation_history]. *)
Definition recent_history (h : history) : list message :=
  if (10 <? length h)%nat then last_n 10 h else h.

Definition user_content (user_message : string) (weather_data : option string) : string :=
  match weather_data with
  | Some data =>
      if truthy data
      then user_message ++ nl ++ nl ++ "Current weather data:" ++ nl ++ data
      else user_message
  | None => user_message
  end.

(** The [messages] list sent by [chat_with_groq]. *)
Definition build_messages (h : history) (user_message : string)
           (weather_data : option string) : list message :=
  ([text_message system (Some system_message)]
     ++ recent_history h
     ++ [text_message user (Some (user_content user_message weather_data))])%list.

(** The string returned by the [except] branch of [chat_with_groq]. *)
Definition connection_apology (e : exn) : string :=
  "Sorry, I'm having trouble connecting to my AI brain right now: " ++ exn_str e.

Definition chat_with_groq (E : env) (user_message : string)
           (weather_data : option string) : M (option string) :=
  h <~ get_history ;;
  let messages := build_messages h user_message weather_data in
  mtry
    (response <~ lift (create E messages) ;;
     append (text_message user (Some user_message)) ;;;
     append (text_message assistant response) ;;;
     ret response)
    (fun e => ret (Some (connection_apology e))).

Definition process_message (E : env) (user_message : string) : M (option string) :=
  let weather_query := is_weather_query user_message in
  weather_data <~
    match weather_query with
    | QNone => ret None
    | _ => data <~ lift (get_weather_data E weather_query) ;; ret (Some data)
    end ;;
  chat_with_groq E user_message weather_data.

(** [chat_loop] over the lines typed, each with the outcomes the external
    calls would have during its turn; once they are all read the loop is
    still waiting at [input]. *)
Fixpoint chat_loop (inputs : list (stdin_event * env)) (h : history)
  : session * history :=
  match inputs with
  | [] => ({| ended := false; turns := [] |}, h)
  | (KeyboardInterrupt, _) :: _ => ({| ended := true; turns := [] |}, h)
  | (Line typed, E) :: rest =>
      let user_input := strip typed in
      if in_list (lower user_input) ["quit"; "exit"; "bye"; "q"] then
        ({| ended := true; turns := [] |}, h)
      else if negb (truthy user_input) then chat_loop rest h
      else
        match process_message E user_input h with
        | (Ret response, h') =>
            let (s, h'') := chat_loop rest h' in
            (after (Replied user_input response) s, h'')
        | (Raise e, h') =>
            let (s, h'') := chat_loop rest h' in
            (after (Failed user_input e) s, h'')
        end
  end.

End Groq.

(** ** [SmartGroqWeatherAgent]: the agent that delegates tool selection *)

Module Smart.
Import PyStr PyDict PyExn Chat.

(** The values [json.loads] produces. *)
Inductive pyval : Type :=
| PNone
| PBool (b : bool)
| PInt (n : Z)
| PFloat (x : float)
| PStr (s : string)
| PList (l : list pyval)
| PDict (d : list (string * pyval)).

(** [response.choices[0].message] of the first completion. *)
Record completion_message : Type := {
  message_content : option string;
  message_tool_calls : list tool_call
}.

Record env : Type := {
  get_alerts : pyval -> res string;
  get_forecast : pyval -> pyval -> res string;
  (** [create(..., tools=self.tools, tool_choice="auto", ...).choices[0].message] *)
  create_with_tools : list message -> res completion_message;
  (** [create(...).choices[0].message.content], no tools offered *)
  create : list message -> res (option string)
}.

Section Agent.

(** The prompt text of [chat_with_tools], which holds quotation marks and
    arrows outside the modelled code points. *)
Variable system_message : string.
(** [json.loads]. *)
Variable json_loads : string -> res pyval.
(** [str(v)] of a value that is not a string, and the text of the
    [TypeError] raised when [v[key]] is evaluated on a value that is not a
    dict: both are the interpreter's. *)
Variable py_str : pyval -> string.
Variable subscript_error : pyval -> string.

(** [{v}] in an f-string. *)
Definition format (v : pyval) : string :=
  match v with
  | PStr s => s
  | _ => py_str v
  end.

(** [arguments[key]]. *)
Definition subscript (arguments : pyval) (key : string) : res pyval :=
  match arguments with
  | PDict d =>
      match getitem key d with
      | Some v => Ret v
      | None => Raise (KeyError key)
      end
  | _ => Raise (TypeError (subscript_error arguments))
  end.

Definition call_weather_function (E : env) (function_name : string)
           (arguments : pyval) : res string :=
  try_except
    (if function_name =? "get_weather_forecast" then
       lat <- subscript arguments "latitude" ;;
       lng <- subscript arguments "longitude" ;;
       location <- subscript arguments "location_name" ;;
       result <- get_forecast E lat lng ;;
       Ret ("Weather forecast for " ++ format location ++ ":" ++ nl ++ result)
     else if function_name =? "get_weather_alerts" then
       state_code <- subscript arguments "state_code" ;;
       state_name <- subscript arguments "state_name" ;;
       result <- get_alerts E state_code ;;
       Ret ("Weather alerts for " ++ format state_name
              ++ " (" ++ format state_code ++ "):" ++ nl ++ result)
     else Ret "Unknown weather function requested")
    (fun e => Ret ("Error getting weather data: " ++ exn_str e)).

(** What [messages.extend(self.conversation_history[-10:])] adds, under its
    guard [if self.conversation_history]. *)
Definition recent_history (h : history) : list message :=
  match h with
  | [] => []
  | _ :: _ => last_n 10 h
  end.

Definition build_messages (h : history) (user_message : string) : list message :=
  ([text_message system (Some system_message)]
     ++ recent_history h
     ++ [text_message user (Some user_message)])%list.

(** The body of the loop over [assistant_message.tool_calls]. *)
Definition run_tool_call (E : env) (call : tool_call) : res message :=
  arguments <- json_loads (function_arguments call) ;;
  result <- call_weather_function E (function_name call) arguments ;;
  Ret {| msg_role := tool; content := Some result;
         tool_call_id := Some (call_id call); tool_calls := [] |}.

(** The [messages] list of the second completion. *)
Definition with_tool_results (messages : list message)
           (assistant_message : completion_message)
           (tool_results : list message) : list message :=
  (messages
     ++ [{| msg_role := assistant;
            content := message_content assistant_message;
            tool_call_id := None;
            tool_calls := message_tool_calls assistant_message |}]
     ++ tool_results)%list.

(** The string returned by the [except] branch of [chat_with_tools]. *)
Definition processing_apology (e : exn) : string :=
  "Sorry, I'm having trouble processing your request: " ++ exn_str e.

Definition chat_with_tools (E : env) (user_message : string) : M (option string) :=
  h <~ get_history ;;
  let messages := build_messages h user_message in
  mtry
    (assistant_message <~ lift (create_with_tools E messages) ;;
     match message_tool_calls assistant_message with
     | _ :: _ =>
         tool_results <~
           lift (for_each (run_tool_call E) (message_tool_calls assistant_message)) ;;
         final_content <~
           lift (create E (with_tool_results messages assistant_message tool_results)) ;;
         append (text_message user (Some user_message)) ;;;
         append (text_message assistant final_content) ;;;
         ret final_content
     | [] =>
         let content := message_content assistant_message in
         append (text_message user (Some user_message)) ;;;
         append (text_message assistant content) ;;;
         ret content
     end)
    (fun e => ret (Some (processing_apology e))).

Fixpoint chat_loop (inputs : list (stdin_event * env)) (h : history)
  : session * history :=
  match inputs with
  | [] => ({| ended := false; turns := [] |}, h)
  | (KeyboardInterrupt, _) :: _ => ({| ended := true; turns := [] |}, h)
  | (Line typed, E) :: rest =>
      let user_input := strip typed in
      if in_list (lower user_input) ["quit"; "exit"; "bye"; "q"] then
        ({| ended := true; turns := [] |}, h)
      else if negb (truthy user_input) then chat_loop rest h
      else
        match chat_with_tools E user_input h with
        | (Ret response, h') =>
            let (s, h'') := chat_loop rest h' in
            (after (Replied user_input response) s, h'')
        | (Raise e, h') =>
            let (s, h'') := chat_loop rest h' in
            (after (Failed user_input e) s, h'')
        end
  end.

End Agent.

End Smart.

(** ** [SimpleWeatherAgent]: the agent without a reasoning engine *)

Module Simple.
Import PyStr PyExn Chat.

(** The pair returned by [parse_simple_query]. *)
Inductive parsed : Type :=
| Alerts (state_code : string)
| Forecast (xy : float * float)
| Unparsed.

Definition parse_forecast (query_lower : string) : parsed :=
  if str_in "forecast" query_lower || str_in "weather" query_lower then
    if str_in "sacramento" query_lower then Forecast (38.5816, -121.4944)%float
    else if str_in "san francisco" query_lower then Forecast (37.7749, -122.4194)%float
    else if str_in "new york" query_lower then Forecast (40.7128, -74.0060)%float
    else Unparsed
  else Unparsed.

Definition parse_simple_query (query : string) : parsed :=
  let query_lower := lower query in
  if str_in "alert" query_lower || str_in "warning" query_lower then
    if str_in "california" query_lower || str_in "ca" query_lower then Alerts "CA"
    else if str_in "texas" query_lower || str_in "tx" query_lower then Alerts "TX"
    else if str_in "new york" query_lower || str_in "ny" query_lower then Alerts "NY"
    else parse_forecast query_lower
  else parse_forecast query_lower.

(** The weather-server functions as imported inside the two getters (a
    failing import raises like a failing call). *)
Record env : Type := {
  get_alerts : string -> res string;
  get_forecast : float -> float -> res string
}.

Definition get_weather_alerts (E : env) (state_code : string) : res string :=
  try_except (get_alerts E state_code)
             (fun e => Ret ("Error getting alerts: " ++ exn_str e)).

Definition get_weather_forecast (E : env) (coordinates : float * float) : res string :=
  try_except (let (lat, lng) := coordinates in get_forecast E lat lng)
             (fun e => Ret ("Error getting forecast: " ++ exn_str e)).

Section Agent.

(** The pictographs and the bullet of the reply texts; they lie outside the
    modelled code points. *)
Variables siren chart question_mark bullet : string.

Definition process_query (E : env) (query : string) : res string :=
  match parse_simple_query query with
  | Alerts params =>
      result <- get_weather_alerts E params ;;
      Ret (siren ++ " Weather Alerts for " ++ params ++ ":" ++ nl ++ nl ++ result)
  | Forecast params =>
      result <- get_weather_forecast E params ;;
      Ret (chart ++ " Weather Forecast:" ++ nl ++ nl ++ result)
  | Unparsed =>
      Ret (question_mark ++ " I can help with:" ++ nl
             ++ bullet ++ " Weather alerts (e.g., 'alerts for California')" ++ nl
             ++ bullet ++ " Weather forecasts (e.g., 'weather in Sacramento')")
  end.

Fixpoint chat_loop (inputs : list (stdin_event * env)) : session :=
  match inputs with
  | [] => {| ended := false; turns := [] |}
  | (KeyboardInterrupt, _) :: _ => {| ended := true; turns := [] |}
  | (Line typed, E) :: rest =>
      let query := strip typed in
      if in_list (lower query) ["quit"; "exit"; "bye"] then
        {| ended := true; turns := [] |}
      else if negb (truthy query) then chat_loop rest
      else
        match process_query E query with
        | Ret response => after (Replied query (Some response)) (chat_loop rest)
        | Raise e => after (Failed query e) (chat_loop rest)
        end
  end.

End Agent.

End Simple.

(** ** Sample environments

    Concrete weather servers and engines on which the turns are run. *)

Module Scenario.
Import PyStr PyExn Chat.

(** The weather server reports no alerts and the engine answers. *)
Definition groq_quiet : Groq.env := {|
  Groq.get_alerts := fun _ => Ret "No active alerts";
  Groq.get_forecast := fun _ _ => Ret "Tonight: clear, low 52F";
  Groq.create := fun _ => Ret (Some "Good news: No active alerts right now.")
|}.

(** The engine cannot be reached. *)
Definition groq_engine_down : Groq.env := {|
  Groq.get_alerts := fun _ => Ret "No active alerts";
  Groq.get_forecast := fun _ _ => Ret "Tonight: clear, low 52F";
  Groq.create := fun _ => Raise (Exception "Connection error.")
|}.

(** The weather server fails and the engine answers all the same. *)
Definition groq_backend_down : Groq.env := {|
  Groq.get_alerts := fun _ => Raise (Exception "timed out");
  Groq.get_forecast := fun _ _ => Raise (Exception "timed out");
  Groq.create := fun _ => Ret (Some "It looks calm out there.")
|}.

Definition system_message : string := "You are a helpful weather assistant.".

Definition california : Smart.pyval :=
  Smart.PDict [("state_code", Smart.PStr "CA"); ("state_name", Smart.PStr "California")].

(** Every argument string decodes to the California arguments. *)
Definition json_loads (arguments : string) : res Smart.pyval := Ret california.

Definition py_str (v : Smart.pyval) : string := "<value>".

Definition subscript_error (v : Smart.pyval) : string := "object is not subscriptable".

Definition alerts_call : tool_call := {|
  call_id := "call_1";
  function_name := "get_weather_alerts";
  function_arguments := "{state_code: CA, state_name: California}"
|}.

Definition requests_alerts : Smart.completion_message := {|
  Smart.message_content := None;
  Smart.message_tool_calls := [alerts_call]
|}.

(** The engine asks for the alerts of California, then answers. *)
Definition smart_quiet : Smart.env := {|
  Smart.get_alerts := fun _ => Ret "No active alerts";
  Smart.get_forecast := fun _ _ => Ret "Tonight: clear, low 52F";
  Smart.create_with_tools := fun _ => Ret requests_alerts;
  Smart.create := fun _ => Ret (Some "Good news: No active alerts right now.")
|}.

Definition smart_engine_down : Smart.env := {|
  Smart.get_alerts := fun _ => Ret "No active alerts";
  Smart.get_forecast := fun _ _ => Ret "Tonight: clear, low 52F";
  Smart.create_with_tools := fun _ => Raise (Exception "Connection error.");
  Smart.create := fun _ => Raise (Exception "Connection error.")
|}.

Definition smart_backend_down : Smart.env := {|
  Smart.get_alerts := fun _ => Raise (Exception "timed out");
  Smart.get_forecast := fun _ _ => Raise (Exception "timed out");
  Smart.create_with_tools := fun _ => Ret requests_alerts;
  Smart.create := fun _ => Ret (Some "It looks calm out there.")
|}.

Definition smart_chat : Smart.env -> string -> M (option string) :=
  Smart.chat_with_tools system_message json_loads py_str subscript_error.

Definition smart_loop : list (stdin_event * Smart.env) -> history -> session * history :=
  Smart.chat_loop system_message json_loads py_str subscript_error.

Definition simple_quiet : Simple.env := {|
  Simple.get_alerts := fun _ => Ret "No active alerts";
  Simple.get_forecast := fun _ _ => Ret "Tonight: clear, low 52F"
|}.

(** The simple agent's loop, with stand-ins for its pictographs. *)
Definition simple_loop : list (stdin_event * Simple.env) -> session :=
  Simple.chat_loop "(!)" "(#)" "(?)" "*".

End Scenario.

(** ** Which gazetteer entries a text can reach

    Both resolvers stop at the first entry that matches, so an entry is
    reached only when nothing listed before it matches. *)

Module Resolution.
Import PyStr PyDict.

(** The codes of the entries [extract_state_from_text] goes through for the
    lower-cased text [t], up to and including the first that matches. *)
Fixpoint states_tried (items : dict string) (t : string) : list string :=
  match items with
  | [] => []
  | (state_name, state_code) :: rest =>
      if str_in state_name t || str_in (lower state_code) t then [state_code]
      else state_code :: states_tried rest t
  end.

(** The entries of [state_codes] whose own name, typed as it is listed, is
    resolved before any entry carrying their code is reached. *)
Definition misresolved_states : dict string :=
  filter (fun e => negb (in_list (snd e) (states_tried Groq.state_codes (fst e))))
         Groq.state_codes.

(** The keys [extract_location_from_text] goes through for [t], up to and
    including the first that matches. *)
Fixpoint cities_tried (items : dict Groq.coords) (t : string) : list string :=
  match items with
  | [] => []
  | (city, _) :: rest =>
      if str_in city t then [city] else city :: cities_tried rest t
  end.

(** The entries of [city_coords] whose key contains a key listed earlier. *)
Definition shadowed_cities : dict Groq.coords :=
  filter (fun e => negb (in_list (fst e) (cities_tried Groq.city_coords (fst e))))
         Groq.city_coords.

End Resolution.

(** ** The shape of a stored conversation *)

Module Shape.
Import PyStr Chat.

(** A string that does not begin with white space. *)
Definition starts_clean (s : string) : Prop :=
  match s with
  | EmptyString => True
  | String c _ => is_space c = false
  end.

Definition role_eqb (a b : role) : bool :=
  match a, b with
  | system, system | user, user | assistant, assistant | tool, tool => true
  | _, _ => false
  end.

(** A message dict with the keys ["role"] and ["content"] only. *)
Definition plain (r : role) (m : message) : bool :=
  role_eqb (msg_role m) r
  && match tool_call_id m with None => true | Some _ => false end
  && match tool_calls m with [] => true | _ :: _ => false end.

(** A history made of exchanges: a user message holding a string, then an
    assistant message, and so on. *)
Fixpoint exchanges (h : history) : bool :=
  match h with
  | [] => true
  | u :: a :: rest =>
      plain user u
      && match content u with Some _ => true | None => false end
      && plain assistant a
      && exchanges rest
  | [_] => false
  end.

(** What a chat loop hands to the per-turn method. *)
Definition turn_input (ev : turn_event) : string :=
  match ev with
  | Replied user_input _ => user_input
  | Failed user_input _ => user_input
  end.

End Shape.

(** * Properties *)

Import PyStr PyDict PyExn Chat.

(** ** Substring tests *)

Lemma prefix_app_l (a b s : string) :
  prefix (a ++ b) s = true -> prefix a s = true.
Proof.
  revert s; induction a as [|c a IH]; intros s H.
  - destruct s; reflexivity.
  - destruct s as [|d s]; simpl in *; [discriminate|].
    destruct (ascii_dec c d); [apply IH; assumption | discriminate].
Qed.

Lemma str_in_app_l (a b s : string) :
  str_in (a ++ b) s = true -> str_in a s = true.
Proof.
  induction s as [|d s IH]; cbn [str_in]; intro H.
  - rewrite orb_false_r in *. apply (prefix_app_l a b); assumption.
  - apply orb_true_iff in H. apply orb_true_iff.
    destruct H as [H|H]; [left; apply (prefix_app_l a b); assumption | right; auto].
Qed.

Lemma any_in_head (k : string) (keys : list string) (s : string) :
  str_in k s = true -> any_in (k :: keys) s = true.
Proof. intro H. unfold any_in. simpl. rewrite H. reflexivity. Qed.

(** ** The classifier of [GroqWeatherAgent] *)

Section Classifier.
Import Groq.

(** The second disjunct of the alert guard adds nothing: both of its words
    are alert keywords. *)
Lemma alert_guard_has_alert (text : string) :
  alert_guard text = has_alert text.
Proof.
  unfold alert_guard, has_alert, has_weather, any_in. simpl.
  destruct (str_in "alert" (lower text)); simpl; [reflexivity|].
  destruct (str_in "warning" (lower text)); simpl; [reflexivity|].
  rewrite andb_false_r, orb_false_r. reflexivity.
Qed.

Lemma first_state_in (items : dict string) (t s : string) :
  first_state items t = Some s -> In s (map snd items).
Proof.
  induction items as [|[name code] rest IH]; simpl; [discriminate|].
  destruct (str_in name t); [intros [= <-]; left; reflexivity|].
  destruct (str_in (lower code) t); [intros [= <-]; left; reflexivity|].
  intro H. right. auto.
Qed.

(** The loop of [extract_state_from_text] is a search for the first entry,
    in insertion order, whose name or lower-cased code occurs in the text. *)
Lemma first_state_find (items : dict string) (t : string) :
  first_state items t =
  option_map snd
    (find (fun e => str_in (fst e) t || str_in (lower (snd e)) t) items).
Proof.
  induction items as [|[name code] rest IH]; simpl; [reflexivity|].
  destruct (str_in name t); simpl; [reflexivity|].
  destruct (str_in (lower code) t); simpl; [reflexivity|]. exact IH.
Qed.

Lemma state_codes_truthy (text state : string) :
  extract_state_from_text text = Some state -> truthy state = true.
Proof.
  intro H. apply first_state_in in H.
  assert (A : forallb truthy (map snd state_codes) = true) by (vm_compute; reflexivity).
  rewrite forallb_forall in A. auto.
Qed.

Lemma first_city_sound (items : dict coords) (t c : string) (xy : coords) :
  first_city items t = Some (c, xy) ->
  exists key, In (key, xy) items /\ c = title key /\ str_in key t = true.
Proof.
  induction items as [|[key v] rest IH]; simpl; [discriminate|].
  destruct (str_in key t) eqn:K.
  - intros [= <- <-]. exists key. auto.
  - intro H. destruct (IH H) as (k & I & T & S). exists k. auto.
Qed.

Lemma forecast_branch_not_alert (text state : string) :
  forecast_branch text <> QAlert state.
Proof.
  unfold forecast_branch.
  destruct (has_weather text); [|discriminate].
  destruct (extract_location_from_text text) as [[c xy]|]; discriminate.
Qed.

Lemma state_codes_first :
  state_codes = ("alabama", "AL") :: tl state_codes.
Proof. vm_compute. reflexivity. Qed.

Lemma al_resolves_to_alabama (text : string) :
  str_in "al" (lower text) = true -> extract_state_from_text text = Some "AL".
Proof.
  intro H. unfold extract_state_from_text. rewrite state_codes_first.
  cbn [first_state]. change (lower "AL") with "al". rewrite H.
  destruct (str_in "alabama" (lower text)); reflexivity.
Qed.




(** C6, as amended.  When an utterance contains an alert keyword and region
    resolution fails, [is_weather_query] returns no alert intent; control
    reaches the forecast branch, so the result is the forecast intent of
    the resolved place when the utterance also has a weather keyword and a
    resolvable place, and no intent otherwise. *)
Theorem C6_alert_without_region_falls_through :
  forall text,
    has_alert text = true ->
    extract_state_from_text text = None ->
    is_weather_query text = forecast_branch text
    /\ (forall state, is_weather_query text <> QAlert state)
    /\ (forall city xy,
           has_weather text = true ->
           extract_location_from_text text = Some (city, xy) ->
           is_weather_query text = QForecast city xy)
    /\ (has_weather text = false \/ extract_location_from_text text = None ->
        is_weather_query text = QNone).
Proof.
  intros text A S.
  assert (E : is_weather_query text = forecast_branch text).
  { unfold is_weather_query. rewrite alert_guard_has_alert, A, S. reflexivity. }
  split; [exact E|]. rewrite E. split; [|split].
  - intro state. apply forecast_branch_not_alert.
  - intros city xy W L. unfold forecast_branch. rewrite W, L. reflexivity.
  - unfold forecast_branch. intros [W|L].
    + rewrite W. reflexivity.
    + rewrite L. destruct (has_weather text); reflexivity.
Qed.

Lemma C6_witness :
  is_weather_query "severe weather tucson" = forecast_branch "severe weather tucson"
  /\ is_weather_query "danger" = QNone.
Proof.
  split.
  - apply (C6_alert_without_region_falls_through "severe weather tucson");
      vm_compute; reflexivity.
  - apply (C6_alert_without_region_falls_through "danger");
      try (vm_compute; reflexivity). left. vm_compute. reflexivity.
Defined.

(** C6 as stated fails: "severe weather tucson" has an alert keyword and no
    resolvable region, and classifies as a forecast intent. *)
Lemma C6_counterexample :
  has_alert "severe weather tucson" = true
  /\ extract_state_from_text "severe weather tucson" = None
  /\ is_weather_query "severe weather tucson"
     = QForecast "Tucson" (32.2226, -110.9747)%float.
Proof. repeat split; vm_compute; reflexivity. Qed.

(** C7, as amended.  When an utterance contains a weather keyword and
    [extract_location_from_text] resolves a place for it, and the alert
    branch does not return first (no alert keyword, or no region resolved),
    [is_weather_query] returns the forecast intent with the resolved label
    and coordinates; these are the title-cased key and the coordinates of
    an entry of the gazetteer whose key occurs in the lower-cased utterance.
    "weather in Sacramento" classifies as the forecast intent for
    Sacramento at (38.5816, -121.4944). *)
Theorem C7_weather_keyword_and_resolved_place :
  (forall text city xy,
      has_weather text = true ->
      extract_location_from_text text = Some (city, xy) ->
      has_alert text = false \/ extract_state_from_text text = None ->
      is_weather_query text = QForecast city xy
      /\ exists key, In (key, xy) city_coords /\ city = title key
                     /\ str_in key (lower text) = true)
  /\ is_weather_query "weather in Sacramento"
     = QForecast "Sacramento" (38.5816, -121.4944)%float.
Proof.
  split; [|vm_compute; reflexivity].
  intros text city xy W L G. split.
  - unfold is_weather_query. rewrite alert_guard_has_alert.
    assert (F : forecast_branch text = QForecast city xy)
      by (unfold forecast_branch; rewrite W, L; reflexivity).
    destruct G as [A|S]; [rewrite A; exact F | rewrite S].
    destruct (has_weather text), (has_alert text); exact F.
  - apply first_city_sound. exact L.
Qed.

Lemma C7_witness :
  is_weather_query "Is it hot in Boston"
  = QForecast "Boston" (42.3601, -71.0589)%float.
Proof.
  apply (proj1 C7_weather_keyword_and_resolved_place);
    [vm_compute; reflexivity | vm_compute; reflexivity | left; vm_compute; reflexivity].
Defined.

(** C7 as stated fails: "severe weather houston texas" has a weather
    keyword and a resolvable place, and classifies as an alert intent. *)
Lemma C7_counterexample :
  has_weather "severe weather houston texas" = true
  /\ extract_location_from_text "severe weather houston texas"
     = Some ("Houston", (29.7604, -95.3698)%float)
  /\ is_weather_query "severe weather houston texas" = QAlert "TX".
Proof. repeat split; vm_compute; reflexivity. Qed.

(** C8: the code at the claim's failing input.  The display of
    [city_coords] lists "columbus", "glendale", "springfield" and
    "kansas city" twice with different coordinates; the dict keeps the
    coordinates listed last, without any check, and the first-listed
    Columbus can no longer be resolved. *)
Theorem C8_duplicate_city_last_value_wins :
  nth_error city_coords_literal 14 = Some ("columbus", (39.9612, -82.9988)%float)
  /\ nth_error city_coords_literal 107 = Some ("columbus", (32.4609, -84.9877)%float)
  /\ getitem "columbus" city_coords = Some (32.4609, -84.9877)%float
  /\ getitem "glendale" city_coords = Some (34.1425, -118.2551)%float
  /\ getitem "springfield" city_coords = Some (39.7817, -89.6501)%float
  /\ getitem "kansas city" city_coords = Some (39.1142, -94.6275)%float
  /\ length city_coords_literal = 168
  /\ length city_coords = 164
  /\ is_weather_query "weather in columbus"
     = QForecast "Columbus" (32.4609, -84.9877)%float.
Proof. repeat split; vm_compute; reflexivity. Qed.

(** C10.  [extract_state_from_text] returns the code of the first entry of
    [state_codes], in insertion order, whose name or whose lower-cased
    two-letter code occurs anywhere in the lower-cased utterance.  Alabama
    is the first entry, so every utterance whose lower-case form contains
    "al" resolves to AL (whatever else it contains); every utterance
    containing the word "alert" is therefore an alert intent for AL, as is
    "any alerts?", which names no state. *)
Theorem C10_al_substring_resolves_to_alabama :
  (forall text,
      extract_state_from_text text =
      option_map snd
        (find (fun e => str_in (fst e) (lower text)
                        || str_in (lower (snd e)) (lower text)) state_codes))
  /\ nth_error state_codes 0 = Some ("alabama", "AL")
  /\ (forall text,
         str_in "al" (lower text) = true ->
         extract_state_from_text text = Some "AL")
  /\ (forall text,
         str_in "alert" (lower text) = true ->
         is_weather_query text = QAlert "AL")
  /\ existsb (fun e => str_in (fst e) (lower "any alerts?")) state_codes = false
  /\ is_weather_query "any alerts?" = QAlert "AL".
Proof.
  split; [intro text; apply first_state_find|].
  split; [vm_compute; reflexivity|].
  split; [exact al_resolves_to_alabama|].
  split; [|split; vm_compute; reflexivity].
  intros text H.
  assert (S : extract_state_from_text text = Some "AL")
    by (apply al_resolves_to_alabama, (str_in_app_l "al" "ert"); exact H).
  unfold is_weather_query. rewrite alert_guard_has_alert.
  unfold has_alert, alert_keywords. rewrite (any_in_head _ _ _ H), S.
  reflexivity.
Qed.

Lemma C10_witness :
  extract_state_from_text "Hail in Dallas" = Some "AL"
  /\ is_weather_query "Alerts for Texas" = QAlert "AL".
Proof.
  split.
  - apply (proj1 (proj2 (proj2 C10_al_substring_resolves_to_alabama))).
    vm_compute. reflexivity.
  - apply (proj1 (proj2 (proj2 (proj2 C10_al_substring_resolves_to_alabama)))).
    vm_compute. reflexivity.
Defined.

End Classifier.

(** ** The history window *)

Lemma last_n_length {A : Type} (n : nat) (l : list A) :
  length (last_n n l) = Nat.min n (length l).
Proof. unfold last_n. rewrite length_skipn. lia. Qed.

Lemma last_n_suffix {A : Type} (n : nat) (l : list A) :
  l = (firstn (length l - n) l ++ last_n n l)%list.
Proof. unfold last_n. symmetry. apply firstn_skipn. Qed.

Lemma last_n_short {A : Type} (n : nat) (l : list A) :
  length l <= n -> last_n n l = l.
Proof.
  intro H. unfold last_n. replace (length l - n) with 0 by lia. reflexivity.
Qed.

Lemma groq_recent_history_last_n (h : history) :
  Groq.recent_history h = last_n 10 h.
Proof.
  unfold Groq.recent_history. destruct (Nat.ltb_spec 10 (length h)) as [L|L].
  - reflexivity.
  - symmetry. apply last_n_short. exact L.
Qed.

Lemma smart_recent_history_last_n (h : history) :
  Smart.recent_history h = last_n 10 h.
Proof. destruct h; reflexivity. Qed.

Lemma appends_from (turns : list message) (h : history) :
  fold_left (fun full t => snd (append t full)) turns h = (h ++ turns)%list.
Proof.
  revert h; induction turns as [|t turns IH]; intro h; simpl.
  - rewrite app_nil_r. reflexivity.
  - rewrite IH, <- app_assoc. reflexivity.
Qed.

(** ** One turn of [GroqWeatherAgent] *)

Section GroqTurn.
Import Groq.

Lemma get_weather_data_total (E : env) (q : query_info) :
  exists data, get_weather_data E q = Ret data.
Proof.
  unfold get_weather_data. destruct q as [state|city [lat lng]|]; simpl.
  - destruct (get_alerts E state); simpl; eauto.
  - destruct (get_forecast E lat lng); simpl; eauto.
  - eauto.
Qed.

Lemma chat_with_groq_returned (E : env) (m : string) (wd : option string)
      (h : history) (r : option string) :
  create E (build_messages h m wd) = Ret r ->
  chat_with_groq E m wd h
  = (Ret r, (h ++ [text_message user (Some m); text_message assistant r])%list).
Proof.
  intro H. unfold chat_with_groq, mbind, mtry, get_history, lift, append, ret.
  rewrite H. simpl. rewrite <- app_assoc. reflexivity.
Qed.

Lemma chat_with_groq_raised (E : env) (m : string) (wd : option string)
      (h : history) (e : exn) :
  create E (build_messages h m wd) = Raise e ->
  chat_with_groq E m wd h = (Ret (Some (connection_apology e)), h).
Proof.
  intro H. unfold chat_with_groq, mbind, mtry, get_history, lift, append, ret.
  rewrite H. reflexivity.
Qed.

(** A turn never raises, and either leaves the history as it was or extends
    it by the user turn and the assistant turn. *)
Lemma chat_with_groq_total (E : env) (m : string) (wd : option string)
      (h : history) :
  exists reply h',
    chat_with_groq E m wd h = (Ret reply, h')
    /\ (h' = h
        \/ h' = (h ++ [text_message user (Some m);
                       text_message assistant reply])%list).
Proof.
  destruct (create E (build_messages h m wd)) as [r|e] eqn:C.
  - exists r. eexists. split; [apply chat_with_groq_returned; exact C|]. auto.
  - exists (Some (connection_apology e)), h.
    split; [apply chat_with_groq_raised; exact C|]. auto.
Qed.

(** [process_message] is [chat_with_groq] on the weather data fetched for
    the classified utterance. *)
Lemma process_message_tool (E : env) (m : string) (h : history) (data : string) :
  is_weather_query m <> QNone ->
  get_weather_data E (is_weather_query m) = Ret data ->
  process_message E m h = chat_with_groq E m (Some data) h.
Proof.
  intros Q D. unfold process_message, mbind, lift, ret.
  destruct (is_weather_query m); try congruence; rewrite D; reflexivity.
Qed.

Lemma process_message_no_tool (E : env) (m : string) (h : history) :
  is_weather_query m = QNone ->
  process_message E m h = chat_with_groq E m None h.
Proof. intro Q. unfold process_message, mbind, ret. rewrite Q. reflexivity. Qed.

Lemma process_message_total (E : env) (m : string) (h : history) :
  exists reply h',
    process_message E m h = (Ret reply, h')
    /\ (h' = h
        \/ h' = (h ++ [text_message user (Some m);
                       text_message assistant reply])%list).
Proof.
  destruct (is_weather_query m) eqn:Q.
  1,2: destruct (get_weather_data_total E (is_weather_query m)) as [data D];
       rewrite (process_message_tool E m h data); [apply chat_with_groq_total | congruence | exact D].
  rewrite (process_message_no_tool E m h Q). apply chat_with_groq_total.
Qed.

Lemma groq_chat_loop_grows (inputs : list (stdin_event * env)) (h : history) :
  exists new, snd (chat_loop inputs h) = (h ++ new)%list.
Proof.
  revert h; induction inputs as [|[ev E] rest IH]; intro h; cbn [chat_loop].
  - exists []. rewrite app_nil_r. reflexivity.
  - destruct ev as [typed|]; [|exists []; rewrite app_nil_r; reflexivity].
    destruct (in_list (lower (strip typed)) ["quit"; "exit"; "bye"; "q"]); [exists []; rewrite app_nil_r; reflexivity|].
    destruct (negb (truthy (strip typed))); [apply IH|].
    destruct (process_message_total E (strip typed) h) as (reply & h' & P & G).
    rewrite P. destruct (IH h') as [new N].
    destruct (chat_loop rest h') as [s h'']. simpl in *.
    destruct G as [->| ->]; [eauto|]. rewrite N, <- app_assoc. eauto.
Qed.


End GroqTurn.

(** ** One turn of [SmartGroqWeatherAgent] *)

Section SmartTurn.
Import Smart.

Variable system_message : string.
Variable json_loads : string -> res pyval.
Variable py_str : pyval -> string.
Variable subscript_error : pyval -> string.

Local Notation call_weather_function :=
  (Smart.call_weather_function py_str subscript_error).
Local Notation run_tool_call :=
  (Smart.run_tool_call json_loads py_str subscript_error).
Local Notation build_messages := (Smart.build_messages system_message).
Local Notation chat_with_tools :=
  (Smart.chat_with_tools system_message json_loads py_str subscript_error).
Local Notation chat_loop :=
  (Smart.chat_loop system_message json_loads py_str subscript_error).

Lemma call_weather_function_total (E : env) (name : string) (arguments : pyval) :
  exists text, call_weather_function E name arguments = Ret text.
Proof.
  unfold Smart.call_weather_function.
  match goal with |- exists _, try_except ?body _ = _ => destruct body end;
    simpl; eauto.
Qed.

Lemma run_tool_call_role (E : env) (call : tool_call) (t : message) :
  run_tool_call E call = Ret t ->
  msg_role t = tool /\ tool_call_id t = Some (call_id call).
Proof.
  unfold Smart.run_tool_call. destruct (json_loads (function_arguments call)); simpl;
    [|discriminate].
  destruct (call_weather_function_total E (function_name call) a) as [text T].
  rewrite T. simpl. intros [= <-]. auto.
Qed.

Lemma for_each_tool_results (E : env) (calls : list tool_call) (results : list message) :
  for_each (run_tool_call E) calls = Ret results ->
  length results = length calls /\ Forall (fun t => msg_role t = tool) results.
Proof.
  revert results; induction calls as [|c calls IH]; intros results; simpl.
  - intros [= <-]. split; [reflexivity | constructor].
  - destruct (run_tool_call E c) as [t|] eqn:T; simpl; [|discriminate].
    destruct (for_each (run_tool_call E) calls) as [ts|]; simpl; [|discriminate].
    intros [= <-]. destruct (IH ts eq_refl) as [L F].
    split; [simpl; congruence|]. constructor; [|exact F].
    apply (run_tool_call_role E c t T).
Qed.

Lemma chat_with_tools_first_raised (E : env) (m : string) (h : history) (e : exn) :
  create_with_tools E (build_messages h m) = Raise e ->
  chat_with_tools E m h = (Ret (Some (processing_apology e)), h).
Proof.
  intro H. unfold Smart.chat_with_tools, mbind, mtry, get_history, lift, ret.
  rewrite H. reflexivity.
Qed.

Lemma chat_with_tools_direct (E : env) (m : string) (h : history)
      (am : completion_message) :
  create_with_tools E (build_messages h m) = Ret am ->
  message_tool_calls am = [] ->
  chat_with_tools E m h
  = (Ret (message_content am),
     (h ++ [text_message user (Some m);
            text_message assistant (message_content am)])%list).
Proof.
  intros H T. unfold Smart.chat_with_tools, mbind, mtry, get_history, lift, append, ret.
  rewrite H, T. simpl. rewrite <- app_assoc. reflexivity.
Qed.

Lemma chat_with_tools_tools (E : env) (m : string) (h : history)
      (am : completion_message) :
  create_with_tools E (build_messages h m) = Ret am ->
  message_tool_calls am <> [] ->
  chat_with_tools E m h =
  match for_each (run_tool_call E) (message_tool_calls am) with
  | Raise e => (Ret (Some (processing_apology e)), h)
  | Ret tool_results =>
      match create E (with_tool_results (build_messages h m) am tool_results) with
      | Raise e => (Ret (Some (processing_apology e)), h)
      | Ret final_content =>
          (Ret final_content,
           (h ++ [text_message user (Some m);
                  text_message assistant final_content])%list)
      end
  end.
Proof.
  intros H T. unfold Smart.chat_with_tools, mbind, mtry, get_history, lift, append, ret.
  rewrite H. destruct (message_tool_calls am) as [|c cs] eqn:C; [congruence|].
  destruct (for_each (run_tool_call E) (c :: cs)) as [results|e]; [|reflexivity].
  destruct (create E (with_tool_results (build_messages h m) am results));
    [|reflexivity].
  simpl. rewrite <- app_assoc. reflexivity.
Qed.

Lemma chat_with_tools_total (E : env) (m : string) (h : history) :
  exists reply h',
    chat_with_tools E m h = (Ret reply, h')
    /\ (h' = h
        \/ h' = (h ++ [text_message user (Some m);
                       text_message assistant reply])%list).
Proof.
  destruct (create_with_tools E (build_messages h m)) as [am|e] eqn:C.
  - destruct (message_tool_calls am) as [|c cs] eqn:T.
    + rewrite (chat_with_tools_direct E m h am C T). eauto.
    + rewrite (chat_with_tools_tools E m h am C) by congruence.
      destruct (for_each (run_tool_call E) (message_tool_calls am)); [|eauto].
      destruct (create E _); eauto.
  - rewrite (chat_with_tools_first_raised E m h e C). eauto.
Qed.

Lemma smart_chat_loop_grows (inputs : list (stdin_event * env)) (h : history) :
  exists new, snd (chat_loop inputs h) = (h ++ new)%list.
Proof.
  revert h; induction inputs as [|[ev E] rest IH]; intro h; cbn [Smart.chat_loop].
  - exists []. rewrite app_nil_r. reflexivity.
  - destruct ev as [typed|]; [|exists []; rewrite app_nil_r; reflexivity].
    destruct (in_list (lower (strip typed)) ["quit"; "exit"; "bye"; "q"]);
      [exists []; rewrite app_nil_r; reflexivity|].
    destruct (negb (truthy (strip typed))); [apply IH|].
    destruct (chat_with_tools_total E (strip typed) h) as (reply & h' & P & G).
    rewrite P. destruct (IH h') as [new N].
    destruct (chat_loop rest h') as [s h'']. simpl in *.
    destruct G as [->| ->]; [eauto|]. rewrite N, <- app_assoc. eauto.
Qed.


End SmartTurn.

(** ** The conversation state across both engine-backed agents *)

Section Conversation.

Variable system_message : string.
Variable json_loads : string -> res Smart.pyval.
Variable py_str : Smart.pyval -> string.
Variable subscript_error : Smart.pyval -> string.

Local Notation smart_call := (Smart.call_weather_function py_str subscript_error).
Local Notation smart_tool := (Smart.run_tool_call json_loads py_str subscript_error).
Local Notation smart_messages := (Smart.build_messages system_message).
Local Notation smart_chat :=
  (Smart.chat_with_tools system_message json_loads py_str subscript_error).
Local Notation smart_loop :=
  (Smart.chat_loop system_message json_loads py_str subscript_error).

Local Notation user_turn m := (text_message user (Some m)).
Local Notation assistant_turn r := (text_message assistant r).

(** C2.  For every sequence of turns appended to an empty history, the full
    history is that sequence (nothing is dropped, so its length is the
    number of appended turns), and the view either agent sends to the
    reasoning engine is its last [min 10 n] turns in their original order.
    The view is a copy: the messages of a call are the system message, the
    view and the current user message, and a whole session only ever
    extends the history it started from. *)
Theorem C2_window_view_and_full_history :
  (forall turns : list message,
      fold_left (fun full t => snd (append t full)) turns [] = turns
      /\ length (fold_left (fun full t => snd (append t full)) turns [])
         = length turns
      /\ length (Groq.recent_history
                   (fold_left (fun full t => snd (append t full)) turns [])) <= 10
      /\ length (Smart.recent_history
                   (fold_left (fun full t => snd (append t full)) turns [])) <= 10)
  /\ (forall full : history,
         Groq.recent_history full = skipn (length full - 10) full
         /\ Smart.recent_history full = skipn (length full - 10) full
         /\ length (Groq.recent_history full) = Nat.min 10 (length full)
         /\ length (Groq.recent_history full) <= 10
         /\ length (Smart.recent_history full) <= 10
         /\ full = (firstn (length full - 10) full ++ Groq.recent_history full)%list)
  /\ (forall full m wd,
         Groq.build_messages full m wd
         = (text_message system (Some Groq.system_message)
              :: Groq.recent_history full
              ++ [text_message user (Some (Groq.user_content m wd))])%list)
  /\ (forall full m,
         smart_messages full m
         = (text_message system (Some system_message)
              :: Smart.recent_history full ++ [user_turn m])%list)
  /\ (forall inputs full,
         exists new, snd (Groq.chat_loop inputs full) = (full ++ new)%list)
  /\ (forall inputs full,
         exists new, snd (smart_loop inputs full) = (full ++ new)%list).
Proof.
  split.
  { intro turns. rewrite (appends_from turns []). cbn [app].
    rewrite groq_recent_history_last_n, smart_recent_history_last_n.
    pose proof (last_n_length 10 turns) as L.
    repeat split; try reflexivity; lia. }
  split.
  { intro full.
    rewrite groq_recent_history_last_n, smart_recent_history_last_n.
    pose proof (last_n_length 10 full) as L.
    repeat split; try reflexivity; try lia; try exact L.
    apply last_n_suffix. }
  split; [reflexivity|]. split; [reflexivity|].
  split; [exact groq_chat_loop_grows|].
  exact (smart_chat_loop_grows system_message json_loads py_str subscript_error).
Qed.

(** C3, as amended.  After a turn in which a weather tool was invoked and
    the reasoning engine answered, the history holds exactly two new turns:
    the user turn with the utterance as typed, then the assistant turn with
    the reply.  The tool's result is part of the messages of that call only
    (inside the user message for the rule-based agent, as tool messages, one
    per tool call, for the delegating agent) and is never stored. *)
Theorem C3_tool_turn_appends_user_and_assistant :
  (forall E m h,
      Groq.is_weather_query m <> Groq.QNone ->
      exists data,
        Groq.get_weather_data E (Groq.is_weather_query m) = Ret data
        /\ forall r,
            Groq.create E (Groq.build_messages h m (Some data)) = Ret r ->
            Groq.process_message E m h
            = (Ret r, (h ++ [user_turn m; assistant_turn r])%list))
  /\ (forall E m h am tool_results r,
         Smart.create_with_tools E (smart_messages h m) = Ret am ->
         Smart.message_tool_calls am <> [] ->
         for_each (smart_tool E) (Smart.message_tool_calls am) = Ret tool_results ->
         Smart.create E (Smart.with_tool_results (smart_messages h m) am tool_results)
         = Ret r ->
         smart_chat E m h = (Ret r, (h ++ [user_turn m; assistant_turn r])%list)
         /\ length tool_results = length (Smart.message_tool_calls am)
         /\ Forall (fun t => msg_role t = tool) tool_results).
Proof.
  split.
  - intros E m h Q.
    destruct (get_weather_data_total E (Groq.is_weather_query m)) as [data D].
    exists data. split; [exact D|]. intros r C.
    rewrite (process_message_tool E m h data Q D).
    apply chat_with_groq_returned. exact C.
  - intros E m h am results r C1 T F C2.
    split; [|apply (for_each_tool_results json_loads py_str subscript_error E); exact F].
    rewrite (chat_with_tools_tools system_message json_loads py_str subscript_error
               E m h am C1 T), F, C2.
    reflexivity.
Qed.

(** C4, as amended.  The user turn is appended only once the reasoning
    engine has answered, together with the assistant turn.  When a call to
    the engine raises (or, in the delegating agent, running the tool calls
    raises), the turn ends with an apology as its reply and the history is
    left as it was before the turn. *)
Theorem C4_user_turn_recorded_with_the_reply :
  (forall E m wd h r,
      Groq.create E (Groq.build_messages h m wd) = Ret r ->
      Groq.chat_with_groq E m wd h
      = (Ret r, (h ++ [user_turn m; assistant_turn r])%list))
  /\ (forall E m wd h e,
         Groq.create E (Groq.build_messages h m wd) = Raise e ->
         Groq.chat_with_groq E m wd h = (Ret (Some (Groq.connection_apology e)), h))
  /\ (forall E m h,
         exists wd, Groq.process_message E m h = Groq.chat_with_groq E m wd h)
  /\ (forall E m h e,
         Smart.create_with_tools E (smart_messages h m) = Raise e ->
         smart_chat E m h = (Ret (Some (Smart.processing_apology e)), h))
  /\ (forall E m h am,
         Smart.create_with_tools E (smart_messages h m) = Ret am ->
         Smart.message_tool_calls am = [] ->
         smart_chat E m h
         = (Ret (Smart.message_content am),
            (h ++ [user_turn m; assistant_turn (Smart.message_content am)])%list))
  /\ (forall E m h am e,
         Smart.create_with_tools E (smart_messages h m) = Ret am ->
         Smart.message_tool_calls am <> [] ->
         for_each (smart_tool E) (Smart.message_tool_calls am) = Raise e ->
         smart_chat E m h = (Ret (Some (Smart.processing_apology e)), h))
  /\ (forall E m h am tool_results,
         Smart.create_with_tools E (smart_messages h m) = Ret am ->
         Smart.message_tool_calls am <> [] ->
         for_each (smart_tool E) (Smart.message_tool_calls am) = Ret tool_results ->
         match Smart.create E (Smart.with_tool_results (smart_messages h m) am tool_results) with
         | Ret r =>
             smart_chat E m h = (Ret r, (h ++ [user_turn m; assistant_turn r])%list)
         | Raise e =>
             smart_chat E m h = (Ret (Some (Smart.processing_apology e)), h)
         end).
Proof.
  split; [exact chat_with_groq_returned|].
  split; [exact chat_with_groq_raised|].
  split.
  { intros E m h. destruct (Groq.is_weather_query m) eqn:Q.
    1,2: destruct (get_weather_data_total E (Groq.is_weather_query m)) as [data D];
         exists (Some data); apply process_message_tool; [congruence | exact D].
    exists None. apply process_message_no_tool. exact Q. }
  split; [apply chat_with_tools_first_raised|].
  split; [apply chat_with_tools_direct|].
  split.
  - intros E m h am e C T F.
    rewrite (chat_with_tools_tools system_message json_loads py_str subscript_error
               E m h am C T), F.
    reflexivity.
  - intros E m h am results C T F.
    rewrite (chat_with_tools_tools system_message json_loads py_str subscript_error
               E m h am C T), F.
    destruct (Smart.create E _); reflexivity.
Qed.


End Conversation.

(** ** Leaving the chat loops *)

Section Sessions.

Variable system_message : string.
Variable json_loads : string -> res Smart.pyval.
Variable py_str : Smart.pyval -> string.
Variable subscript_error : Smart.pyval -> string.
Variables siren chart question_mark bullet : string.

(** C9, as amended.  In a session of [GroqWeatherAgent] or of
    [SmartGroqWeatherAgent], a line that is one of quit, exit, bye and q
    once stripped and lower-cased ends the session: the loop is left with
    no call of the per-turn method for that line, the history untouched and
    the rest of the input unread.  In a session of [SimpleWeatherAgent] the
    same holds for quit, exit and bye. *)
Theorem C9_termination_tokens_leave_the_loop :
  (forall typed E rest h,
      in_list (lower (strip typed)) ["quit"; "exit"; "bye"; "q"] = true ->
      Groq.chat_loop ((Line typed, E) :: rest) h
      = ({| ended := true; turns := [] |}, h))
  /\ (forall typed E rest h,
         in_list (lower (strip typed)) ["quit"; "exit"; "bye"; "q"] = true ->
         Smart.chat_loop system_message json_loads py_str subscript_error
                         ((Line typed, E) :: rest) h
         = ({| ended := true; turns := [] |}, h))
  /\ (forall typed E rest,
         in_list (lower (strip typed)) ["quit"; "exit"; "bye"] = true ->
         Simple.chat_loop siren chart question_mark bullet ((Line typed, E) :: rest)
         = {| ended := true; turns := [] |}).
Proof.
  repeat split; intros; cbn [Groq.chat_loop Smart.chat_loop Simple.chat_loop];
    match goal with H : in_list _ _ = true |- _ => rewrite H end; reflexivity.
Qed.

End Sessions.

(** ** The claims at concrete inputs *)

Lemma C9_witness :
  Groq.chat_loop [(Line "  Quit ", Scenario.groq_quiet);
                  (Line "alerts for California", Scenario.groq_quiet)] []
  = ({| ended := true; turns := [] |}, [])
  /\ Scenario.smart_loop [(Line "Q", Scenario.smart_quiet)] []
     = ({| ended := true; turns := [] |}, [])
  /\ Scenario.simple_loop [(Line "BYE", Scenario.simple_quiet)]
     = {| ended := true; turns := [] |}.
Proof.
  split; [|split].
  - apply (proj1 (C9_termination_tokens_leave_the_loop
                    Scenario.system_message Scenario.json_loads Scenario.py_str
                    Scenario.subscript_error "(!)" "(#)" "(?)" "*")).
    vm_compute. reflexivity.
  - apply (proj1 (proj2 (C9_termination_tokens_leave_the_loop
                    Scenario.system_message Scenario.json_loads Scenario.py_str
                    Scenario.subscript_error "(!)" "(#)" "(?)" "*"))).
    vm_compute. reflexivity.
  - apply (proj2 (proj2 (C9_termination_tokens_leave_the_loop
                    Scenario.system_message Scenario.json_loads Scenario.py_str
                    Scenario.subscript_error "(!)" "(#)" "(?)" "*"))).
    vm_compute. reflexivity.
Defined.

(** C9 as stated fails for [SimpleWeatherAgent]: the line "q" does not end
    its session; it is handed to [process_query] and answered. *)
Lemma C9_counterexample :
  ended (Scenario.simple_loop [(Line "q", Scenario.simple_quiet)]) = false
  /\ exists reply,
      turns (Scenario.simple_loop [(Line "q", Scenario.simple_quiet)])
      = [Replied "q" (Some reply)].
Proof. split; [vm_compute; reflexivity|]. eexists. vm_compute. reflexivity. Qed.

(** C3 as stated fails: after the tool turn for "alerts for California" the
    history holds two turns, the user's and the assistant's, in either
    agent. *)
Lemma C3_counterexample :
  Groq.is_weather_query "alerts for California" = Groq.QAlert "AL"
  /\ snd (Groq.process_message Scenario.groq_quiet "alerts for California" [])
     = [text_message user (Some "alerts for California");
        text_message assistant (Some "Good news: No active alerts right now.")]
  /\ length (snd (Groq.process_message Scenario.groq_quiet "alerts for California" [])) = 2
  /\ for_each (Smart.run_tool_call Scenario.json_loads Scenario.py_str
                                   Scenario.subscript_error Scenario.smart_quiet)
              [Scenario.alerts_call]
     = Ret [{| msg_role := tool;
               content := Some ("Weather alerts for California (CA):" ++ nl
                                  ++ "No active alerts");
               tool_call_id := Some "call_1"; tool_calls := [] |}]
  /\ snd (Scenario.smart_chat Scenario.smart_quiet "alerts for California" [])
     = [text_message user (Some "alerts for California");
        text_message assistant (Some "Good news: No active alerts right now.")].
Proof. repeat split; vm_compute; reflexivity. Qed.

Lemma C3_witness :
  Groq.process_message Scenario.groq_quiet "alerts for California" []
  = (Ret (Some "Good news: No active alerts right now."),
     [text_message user (Some "alerts for California");
      text_message assistant (Some "Good news: No active alerts right now.")])
  /\ Scenario.smart_chat Scenario.smart_quiet "alerts for California" []
     = (Ret (Some "Good news: No active alerts right now."),
        [text_message user (Some "alerts for California");
         text_message assistant (Some "Good news: No active alerts right now.")]).
Proof.
  pose proof (C3_tool_turn_appends_user_and_assistant
                Scenario.system_message Scenario.json_loads Scenario.py_str
                Scenario.subscript_error) as [G S].
  split.
  - destruct (G Scenario.groq_quiet "alerts for California" []) as (data & _ & H).
    + vm_compute. discriminate.
    + apply H. reflexivity.
  - apply (S Scenario.smart_quiet "alerts for California" [] Scenario.requests_alerts
             [{| msg_role := tool;
                 content := Some ("Weather alerts for California (CA):" ++ nl
                                    ++ "No active alerts");
                 tool_call_id := Some "call_1"; tool_calls := [] |}]).
    + reflexivity.
    + discriminate.
    + vm_compute. reflexivity.
    + reflexivity.
Defined.

(** C4 as stated fails: when the engine cannot be reached the turn ends with
    an apology and the utterance is not in the history. *)
Lemma C4_counterexample :
  Groq.process_message Scenario.groq_engine_down "weather in Sacramento" []
  = (Ret (Some "Sorry, I'm having trouble connecting to my AI brain right now: Connection error."),
     [])
  /\ Scenario.smart_chat Scenario.smart_engine_down "weather in Sacramento" []
     = (Ret (Some "Sorry, I'm having trouble processing your request: Connection error."),
        []).
Proof. split; vm_compute; reflexivity. Qed.

Lemma C4_witness :
  Groq.chat_with_groq Scenario.groq_engine_down "hello" None []
  = (Ret (Some (Groq.connection_apology (Exception "Connection error."))), [])
  /\ Groq.chat_with_groq Scenario.groq_quiet "hello" None []
     = (Ret (Some "Good news: No active alerts right now."),
        [text_message user (Some "hello");
         text_message assistant (Some "Good news: No active alerts right now.")]).
Proof.
  pose proof (C4_user_turn_recorded_with_the_reply
                Scenario.system_message Scenario.json_loads Scenario.py_str
                Scenario.subscript_error) as (Ok & Down & _).
  split.
  - apply Down. reflexivity.
  - apply (Ok Scenario.groq_quiet "hello" None []). reflexivity.
Defined.



(** * Further properties of the agents *)

(** ** Substrings and case *)

Lemma append_assoc_str (a b c : string) : (a ++ b) ++ c = a ++ (b ++ c).
Proof. induction a as [|x a IH]; simpl; [reflexivity | rewrite IH; reflexivity]. Qed.

Lemma prefix_iff (a b : string) :
  prefix a b = true <-> exists q, b = a ++ q.
Proof.
  revert b; induction a as [|x a IH]; intro b.
  - split; [intros _; exists b; reflexivity | intros _; destruct b; reflexivity].
  - destruct b as [|y b]; simpl.
    + split; [discriminate | intros [q Q]; discriminate].
    + destruct (ascii_dec x y) as [->|N].
      * rewrite IH. split; intros [q Q]; exists q; [rewrite Q; reflexivity | congruence].
      * split; [discriminate | intros [q Q]; congruence].
Qed.

Lemma str_in_iff (a b : string) :
  str_in a b = true <-> exists p q, b = p ++ a ++ q.
Proof.
  induction b as [|y b IH]; cbn [str_in].
  - rewrite orb_false_r, prefix_iff. split.
    + intros [q Q]. exists EmptyString, q. exact Q.
    + intros (p & q & Q). destruct p; [exists q; exact Q | discriminate].
  - rewrite orb_true_iff, prefix_iff, IH. split.
    + intros [[q Q]|(p & q & Q)].
      * exists EmptyString, q. exact Q.
      * exists (String y p), q. simpl. rewrite Q. reflexivity.
    + intros (p & q & Q). destruct p as [|z p]; simpl in Q.
      * left. exists q. exact Q.
      * right. exists p, q. congruence.
Qed.

Lemma str_in_refl (a : string) : str_in a a = true.
Proof.
  apply str_in_iff. exists EmptyString, EmptyString. simpl.
  induction a as [|x a IH]; simpl; congruence.
Qed.

Lemma str_in_trans (a b c : string) :
  str_in a b = true -> str_in b c = true -> str_in a c = true.
Proof.
  rewrite !str_in_iff. intros (p & q & ->) (p' & q' & ->).
  exists (p' ++ p), (q ++ q'). rewrite !append_assoc_str. reflexivity.
Qed.

Lemma lower_char_idempotent (c : ascii) :
  lower_char (lower_char c) = lower_char c.
Proof. destruct c as [[] [] [] [] [] [] [] []]; reflexivity. Qed.

Lemma lower_idempotent (s : string) : lower (lower s) = lower s.
Proof.
  induction s as [|c s IH]; simpl; [reflexivity|].
  rewrite lower_char_idempotent, IH. reflexivity.
Qed.

Lemma in_list_true (x : string) (l : list string) :
  in_list x l = true <-> In x l.
Proof.
  unfold in_list. rewrite existsb_exists. split.
  - intros (y & I & E). apply String.eqb_eq in E. subst. exact I.
  - intro I. exists x. split; [exact I | apply String.eqb_refl].
Qed.

(** ** More on the classifier of [GroqWeatherAgent] *)

Section ClassifierMore.
Import Groq Resolution.

Lemma first_city_none (items : dict coords) (t : string) :
  first_city items t = None <->
  forall key xy, In (key, xy) items -> str_in key t = false.
Proof.
  induction items as [|[k v] rest IH]; simpl.
  - split; [intros _ key xy [] | reflexivity].
  - destruct (str_in k t) eqn:K.
    + split; [discriminate|]. intro H. rewrite (H k v) in K by auto. discriminate.
    + rewrite IH. split.
      * intros H key xy [[= <- <-]|I]; [exact K | eapply H; exact I].
      * intros H key xy I. eapply H. right. exact I.
Qed.

Lemma first_city_first (items : dict coords) (t label : string) (xy : coords) :
  first_city items t = Some (label, xy) ->
  exists before key after,
    items = (before ++ (key, xy) :: after)%list
    /\ label = title key
    /\ str_in key t = true
    /\ forall k v, In (k, v) before -> str_in k t = false.
Proof.
  induction items as [|[k v] rest IH]; simpl; [discriminate|].
  destruct (str_in k t) eqn:K.
  - intros [= <- <-]. exists [], k, rest. repeat split; auto. intros ? ? [].
  - intro H. destruct (IH H) as (before & key & after & -> & L & S & B).
    exists ((k, v) :: before), key, after. repeat split; auto.
    intros k' v' [[= <- <-]|I]; [exact K | eapply B; exact I].
Qed.

Lemma first_state_tried (items : dict string) (n t : string) :
  (forall s, str_in s n = true -> str_in s t = true) ->
  first_state items n <> None ->
  exists c, first_state items t = Some c /\ In c (states_tried items n).
Proof.
  intro Sub. induction items as [|[name code] rest IH]; simpl; [congruence|].
  destruct (str_in name n) eqn:A; simpl.
  - intros _. rewrite (Sub _ A). exists code. simpl; auto.
  - destruct (str_in (lower code) n) eqn:B; simpl.
    + intros _. rewrite (Sub _ B). exists code.
      destruct (str_in name t); simpl; auto.
    + intro H. destruct (str_in name t); [exists code; simpl; auto|].
      destruct (str_in (lower code) t); [exists code; simpl; auto|].
      destruct (IH H) as (c & F & I). exists c. simpl; auto.
Qed.

Lemma first_state_own (items : dict string) (name code : string) :
  In (name, code) items -> first_state items name <> None.
Proof.
  induction items as [|[n c] rest IH]; simpl; [intros []|].
  intros [[= -> ->]|I].
  - rewrite str_in_refl. discriminate.
  - destruct (str_in n name); [discriminate|].
    destruct (str_in (lower c) name); [discriminate | auto].
Qed.

Lemma first_city_tried (items : dict coords) (n t : string) :
  (forall s, str_in s n = true -> str_in s t = true) ->
  first_city items n <> None ->
  exists key xy,
    first_city items t = Some (title key, xy)
    /\ In (key, xy) items /\ In key (cities_tried items n).
Proof.
  intro Sub. induction items as [|[k v] rest IH]; simpl; [congruence|].
  destruct (str_in k n) eqn:A.
  - intros _. rewrite (Sub _ A). exists k, v. simpl; auto.
  - intro H. destruct (str_in k t); [exists k, v; simpl; auto|].
    destruct (IH H) as (key & xy & F & I & T). exists key, xy. simpl; auto.
Qed.

Lemma first_city_own (items : dict coords) (key : string) (xy : coords) :
  In (key, xy) items -> first_city items key <> None.
Proof.
  induction items as [|[k v] rest IH]; simpl; [intros []|].
  intros [[= -> ->]|I].
  - rewrite str_in_refl. discriminate.
  - destruct (str_in k key); [discriminate | auto].
Qed.

Lemma classifier_reads_lower (t1 t2 : string) :
  lower t1 = lower t2 ->
  is_weather_query t1 = is_weather_query t2
  /\ extract_state_from_text t1 = extract_state_from_text t2
  /\ extract_location_from_text t1 = extract_location_from_text t2.
Proof.
  intro H.
  unfold is_weather_query, forecast_branch, alert_guard, has_alert, has_weather,
    extract_state_from_text, extract_location_from_text.
  rewrite H. auto.
Qed.

(** X1.  The classifiers read the utterance only through its lower-cased
    form: two utterances that differ in letter case alone get the same
    intent, the same region code and the same place, in the rule-based
    agent and in [parse_simple_query]. *)
Theorem X1_classification_ignores_case :
  forall t1 t2,
    lower t1 = lower t2 ->
    is_weather_query t1 = is_weather_query t2
    /\ extract_state_from_text t1 = extract_state_from_text t2
    /\ extract_location_from_text t1 = extract_location_from_text t2
    /\ Simple.parse_simple_query t1 = Simple.parse_simple_query t2
    /\ is_weather_query (lower t1) = is_weather_query t1.
Proof.
  intros t1 t2 H.
  destruct (classifier_reads_lower t1 t2 H) as (Q & S & L).
  repeat split; auto.
  - unfold Simple.parse_simple_query. rewrite H. reflexivity.
  - apply classifier_reads_lower, lower_idempotent.
Qed.

Lemma X1_witness :
  is_weather_query "SEVERE Weather, Houston TEXAS"
  = is_weather_query "severe weather, houston texas".
Proof.
  apply (X1_classification_ignores_case "SEVERE Weather, Houston TEXAS"
                                        "severe weather, houston texas").
  vm_compute. reflexivity.
Defined.

(** X2.  Every intent [is_weather_query] returns is justified by the
    utterance: an alert intent only with an alert keyword and with the code
    [extract_state_from_text] gives; a forecast intent only with a weather
    keyword, with the place [extract_location_from_text] gives, and when no
    alert intent was possible; no intent only when neither was possible. *)
Theorem X2_intent_is_justified :
  forall text,
    match is_weather_query text with
    | QAlert state =>
        has_alert text = true /\ extract_state_from_text text = Some state
    | QForecast city xy =>
        has_weather text = true
        /\ extract_location_from_text text = Some (city, xy)
        /\ (has_alert text = false \/ extract_state_from_text text = None)
    | QNone =>
        (has_alert text = false \/ extract_state_from_text text = None)
        /\ (has_weather text = false \/ extract_location_from_text text = None)
    end.
Proof.
  intro text. unfold is_weather_query. rewrite alert_guard_has_alert.
  assert (F : forall G : has_alert text = false \/ extract_state_from_text text = None,
             match forecast_branch text with
             | QAlert state =>
                 has_alert text = true /\ extract_state_from_text text = Some state
             | QForecast city xy =>
                 has_weather text = true
                 /\ extract_location_from_text text = Some (city, xy)
                 /\ (has_alert text = false \/ extract_state_from_text text = None)
             | QNone =>
                 (has_alert text = false \/ extract_state_from_text text = None)
                 /\ (has_weather text = false \/ extract_location_from_text text = None)
             end).
  { intro G. unfold forecast_branch.
    destruct (has_weather text); [|auto].
    destruct (extract_location_from_text text) as [[c xy]|]; auto. }
  destruct (has_alert text) eqn:A; [|apply F; auto].
  destruct (extract_state_from_text text) as [state|] eqn:S; [|apply F; auto].
  rewrite (state_codes_truthy text state S). auto.
Qed.

(** X3.  An utterance with no alert keyword and no weather keyword has no
    intent, and its turn never consults the weather server: the reply and
    the history after [process_message] are the same under any two
    environments whose reasoning engine is the same. *)
Theorem X3_no_keyword_no_backend_call :
  forall text,
    has_alert text = false ->
    has_weather text = false ->
    is_weather_query text = QNone
    /\ forall E E' h,
        create E = create E' ->
        process_message E text h = process_message E' text h.
Proof.
  intros text A W.
  assert (Q : is_weather_query text = QNone).
  { unfold is_weather_query, forecast_branch.
    rewrite alert_guard_has_alert, A, W. reflexivity. }
  split; [exact Q|]. intros E E' h C.
  rewrite !(process_message_no_tool _ text h Q).
  unfold chat_with_groq, mbind, mtry, get_history, lift. rewrite C. reflexivity.
Qed.

Lemma X3_witness :
  process_message Scenario.groq_quiet "Hello! How are you?" []
  = process_message
      {| get_alerts := fun _ => Raise (Exception "timed out");
         get_forecast := fun _ _ => Raise (Exception "timed out");
         create := fun _ => Ret (Some "Good news: No active alerts right now.") |}
      "Hello! How are you?" [].
Proof.
  apply (X3_no_keyword_no_backend_call "Hello! How are you?");
    vm_compute; reflexivity.
Defined.

(** X4.  [extract_location_from_text] returns nothing exactly when no key
    of the gazetteer occurs in the lower-cased utterance; otherwise it
    returns the title-cased key and the coordinates of the first entry, in
    the order of the dict, whose key occurs: no entry listed before it
    occurs in the utterance. *)
Theorem X4_first_gazetteer_key_wins :
  forall text,
    (extract_location_from_text text = None <->
     forall key xy, In (key, xy) city_coords -> str_in key (lower text) = false)
    /\ (forall label xy,
           extract_location_from_text text = Some (label, xy) ->
           exists before key after,
             city_coords = (before ++ (key, xy) :: after)%list
             /\ label = title key
             /\ str_in key (lower text) = true
             /\ forall k v, In (k, v) before -> str_in k (lower text) = false).
Proof.
  intro text. split; [apply first_city_none|].
  intros label xy. apply first_city_first.
Qed.

Lemma X4_witness :
  exists before key after,
    city_coords = (before ++ (key, (42.3601, -71.0589)%float) :: after)%list
    /\ "Boston" = title key
    /\ str_in key (lower "Is it hot in Boston") = true
    /\ forall k v, In (k, v) before -> str_in k (lower "Is it hot in Boston") = false.
Proof.
  apply (proj2 (X4_first_gazetteer_key_wins "Is it hot in Boston")).
  vm_compute. reflexivity.
Defined.

Lemma city_coords_first_four :
  city_coords
  = (("new york", (40.7128, -74.0060)) :: ("nyc", (40.7128, -74.0060))
       :: ("los angeles", (34.0522, -118.2437)) :: ("la", (34.0522, -118.2437))
       :: skipn 4 city_coords)%float.
Proof. vm_compute. reflexivity. Qed.

(** X5.  Because "la" is the fourth key of the gazetteer and keys are
    matched as substrings, every utterance whose lower-case form contains
    "la" anywhere (as in Atlanta, Dallas, Portland or Cleveland) and
    mentions neither "new york" nor "nyc" is resolved to the coordinates of
    Los Angeles, under the label "Los Angeles" or "La". *)
Theorem X5_la_inside_a_word_gives_los_angeles :
  forall text,
    str_in "la" (lower text) = true ->
    str_in "new york" (lower text) = false ->
    str_in "nyc" (lower text) = false ->
    exists label,
      extract_location_from_text text = Some (label, (34.0522, -118.2437)%float)
      /\ (label = "Los Angeles" \/ label = "La").
Proof.
  intros text L N1 N2. unfold extract_location_from_text.
  rewrite city_coords_first_four. cbn [first_city]. rewrite N1, N2, L.
  destruct (str_in "los angeles" (lower text)).
  - exists "Los Angeles". split; [reflexivity | auto].
  - exists "La". split; [reflexivity | auto].
Qed.

Lemma X5_witness :
  exists label,
    extract_location_from_text "Weather in Atlanta"
    = Some (label, (34.0522, -118.2437)%float)
    /\ (label = "Los Angeles" \/ label = "La").
Proof.
  apply (X5_la_inside_a_word_gives_los_angeles "Weather in Atlanta");
    vm_compute; reflexivity.
Defined.

(** X6.  Twenty-one keys of the gazetteer contain a key listed before them
    (nineteen contain "la", "washington dc" contains "washington",
    "moreno valley" contains "reno").  Whatever the utterance, when it
    mentions such a key it is resolved to the entry of another key, listed
    earlier: the entry of the key itself is never reached. *)
Theorem X6_shadowed_city_is_never_reached :
  length shadowed_cities = 21
  /\ forall text key xy,
      In (key, xy) shadowed_cities ->
      str_in key (lower text) = true ->
      exists key' xy',
        extract_location_from_text text = Some (title key', xy')
        /\ In (key', xy') city_coords
        /\ key' <> key.
Proof.
  split; [vm_compute; reflexivity|].
  intros text key xy I S. unfold shadowed_cities in I.
  apply filter_In in I. destruct I as [I T]. cbn [fst snd] in T.
  destruct (first_city_tried city_coords key (lower text)) as (k & v & F & Ik & Tk).
  - intros s Hs. apply (str_in_trans s key); assumption.
  - apply (first_city_own city_coords key xy I).
  - exists k, v. repeat split; auto. intros ->.
    apply in_list_true in Tk. rewrite Tk in T. discriminate.
Qed.

Lemma X6_witness :
  exists key' xy',
    extract_location_from_text "Forecast for Philadelphia please"
    = Some (title key', xy')
    /\ In (key', xy') city_coords
    /\ key' <> "philadelphia".
Proof.
  apply (proj2 X6_shadowed_city_is_never_reached
               "Forecast for Philadelphia please" "philadelphia"
               (39.9526, -75.1652)%float).
  - vm_compute. tauto.
  - vm_compute. reflexivity.
Defined.

(** X7.  For thirty-two of the fifty state names the name itself contains
    the name or the two-letter code of an entry listed before every entry
    with its own code ("ohio" contains "hi", "california" contains "al",
    "new york" contains "ne").  Whatever the utterance, when it mentions
    such a state by name, [extract_state_from_text] returns the code of
    another state. *)
Theorem X7_state_named_in_full_is_misresolved :
  length misresolved_states = 32
  /\ forall text name code,
      In (name, code) misresolved_states ->
      str_in name (lower text) = true ->
      exists other,
        extract_state_from_text text = Some other /\ other <> code.
Proof.
  split; [vm_compute; reflexivity|].
  intros text name code I S. unfold misresolved_states in I.
  apply filter_In in I. destruct I as [I T]. cbn [fst snd] in T.
  destruct (first_state_tried state_codes name (lower text)) as (c & F & Tc).
  - intros s Hs. apply (str_in_trans s name); assumption.
  - apply (first_state_own state_codes name code I).
  - exists c. split; [exact F|]. intros ->.
    apply in_list_true in Tc. rewrite Tc in T. discriminate.
Qed.

Lemma X7_witness :
  exists other,
    extract_state_from_text "Any tornado warning in Ohio?" = Some other
    /\ other <> "OH".
Proof.
  apply (proj2 X7_state_named_in_full_is_misresolved
               "Any tornado warning in Ohio?" "ohio" "OH").
  - vm_compute. tauto.
  - vm_compute. reflexivity.
Defined.

End ClassifierMore.

(** ** Stripping *)

Import Shape.

Lemma lstrip_starts_clean (s : string) : starts_clean (lstrip s).
Proof.
  induction s as [|c s IH]; simpl; [exact I|].
  destruct (is_space c) eqn:C; [exact IH | exact C].
Qed.

Lemma lstrip_clean (s : string) : starts_clean s -> lstrip s = s.
Proof. destruct s as [|c s]; simpl; [reflexivity | intros ->; reflexivity]. Qed.

Lemma rstrip_starts_clean (s : string) : starts_clean s -> starts_clean (rstrip s).
Proof.
  destruct s as [|c s]; simpl; [exact (fun H => H)|]. intro C.
  destruct (rstrip s); [rewrite C|]; exact C.
Qed.

Lemma rstrip_idempotent (s : string) : rstrip (rstrip s) = rstrip s.
Proof.
  induction s as [|c s IH]; simpl; [reflexivity|].
  destruct (rstrip s) as [|d r] eqn:R.
  - destruct (is_space c) eqn:C; simpl; [reflexivity | rewrite C; reflexivity].
  - cbn [rstrip] in *. rewrite IH. reflexivity.
Qed.

Lemma strip_idempotent (s : string) : strip (strip s) = strip s.
Proof.
  unfold strip.
  rewrite (lstrip_clean (rstrip (lstrip s)))
    by apply rstrip_starts_clean, lstrip_starts_clean.
  apply rstrip_idempotent.
Qed.

(** ** The stored conversation and the chat loops *)

Lemma exchanges_extend (u a : message) :
  plain user u = true ->
  (exists c, content u = Some c) ->
  plain assistant a = true ->
  forall h, exchanges h = true -> exchanges (h ++ [u; a])%list = true.
Proof.
  intros U [c C] A.
  assert (B : exchanges [u; a] = true) by (simpl; rewrite U, C, A; reflexivity).
  assert (P : forall h,
             (exchanges h = true -> exchanges (h ++ [u; a])%list = true)
             /\ forall x, exchanges (x :: h) = true ->
                          exchanges ((x :: h) ++ [u; a])%list = true).
  { induction h as [|y h [IH1 IH2]].
    - split; [intros _; exact B | intros x; simpl; discriminate].
    - split; [apply IH2|]. intros x. cbn [exchanges app].
      intro H. apply andb_true_iff in H. destruct H as [H1 H2].
      rewrite H1. apply IH1. exact H2. }
  intro h. apply P.
Qed.

Lemma exchanges_facts (h : history) :
  exchanges h = true ->
  Nat.even (length h) = true
  /\ Forall (fun m => msg_role m = user \/ msg_role m = assistant) h.
Proof.
  assert (R : forall r m, plain r m = true -> msg_role m = r).
  { intros r m H. unfold plain in H.
    apply andb_true_iff in H. destruct H as [H _].
    apply andb_true_iff in H. destruct H as [H _].
    destruct (msg_role m), r; simpl in H; congruence. }
  assert (P : forall h,
             (exchanges h = true ->
              Nat.even (length h) = true
              /\ Forall (fun m => msg_role m = user \/ msg_role m = assistant) h)
             /\ forall x, exchanges (x :: h) = true ->
                  Nat.even (length (x :: h)) = true
                  /\ Forall (fun m => msg_role m = user \/ msg_role m = assistant)
                            (x :: h)).
  { induction h0 as [|y h0 [IH1 IH2]].
    - split; [intros _; split; [reflexivity | constructor] | intros x; simpl; discriminate].
    - split; [apply IH2|]. intros x. cbn [exchanges].
      intro H. apply andb_true_iff in H. destruct H as [H H4].
      apply andb_true_iff in H. destruct H as [H H3].
      apply andb_true_iff in H. destruct H as [H1 H2].
      destruct (IH1 H4) as [E F]. split; [exact E|].
      constructor; [left; apply R; exact H1|].
      constructor; [right; apply R; exact H3 | exact F]. }
  apply P.
Qed.

Lemma exchanges_turn (h h' : history) (m : string) (reply : option string) :
  exchanges h = true ->
  h' = h \/ h' = (h ++ [text_message user (Some m); text_message assistant reply])%list ->
  exchanges h' = true.
Proof.
  intros H [->| ->]; [exact H|].
  apply exchanges_extend; [reflexivity | eexists; reflexivity | reflexivity | exact H].
Qed.

Section Loops.

Variable system_message : string.
Variable json_loads : string -> res Smart.pyval.
Variable py_str : Smart.pyval -> string.
Variable subscript_error : Smart.pyval -> string.
Variables siren chart question_mark bullet : string.

Local Notation smart_chat :=
  (Smart.chat_with_tools system_message json_loads py_str subscript_error).
Local Notation smart_loop :=
  (Smart.chat_loop system_message json_loads py_str subscript_error).
Local Notation simple_loop := (Simple.chat_loop siren chart question_mark bullet).

Lemma groq_loop_exchanges (inputs : list (stdin_event * Groq.env)) (h : history) :
  exchanges h = true -> exchanges (snd (Groq.chat_loop inputs h)) = true.
Proof.
  revert h; induction inputs as [|[ev E] rest IH]; intros h H; cbn [Groq.chat_loop].
  - exact H.
  - destruct ev as [typed|]; [|exact H].
    destruct (in_list (lower (strip typed)) ["quit"; "exit"; "bye"; "q"]); [exact H|].
    destruct (negb (truthy (strip typed))); [apply IH; exact H|].
    destruct (process_message_total E (strip typed) h) as (reply & h' & P & G).
    rewrite P. specialize (IH h' (exchanges_turn h h' _ reply H G)).
    destruct (Groq.chat_loop rest h') as [s h'']. exact IH.
Qed.

Lemma smart_loop_exchanges (inputs : list (stdin_event * Smart.env)) (h : history) :
  exchanges h = true -> exchanges (snd (smart_loop inputs h)) = true.
Proof.
  revert h; induction inputs as [|[ev E] rest IH]; intros h H; cbn [Smart.chat_loop].
  - exact H.
  - destruct ev as [typed|]; [|exact H].
    destruct (in_list (lower (strip typed)) ["quit"; "exit"; "bye"; "q"]); [exact H|].
    destruct (negb (truthy (strip typed))); [apply IH; exact H|].
    destruct (chat_with_tools_total system_message json_loads py_str subscript_error
                E (strip typed) h) as (reply & h' & P & G).
    rewrite P. specialize (IH h' (exchanges_turn h h' _ reply H G)).
    destruct (smart_loop rest h') as [s h'']. exact IH.
Qed.

(** X8.  The stored conversation keeps its shape.  Starting from a history
    made of exchanges (as the empty history of a new agent is), one turn or
    a whole session of either engine-backed agent leaves a history made of
    exchanges: a user message holding a string, then an assistant message,
    and so on, each with the keys role and content only.  Its length is
    therefore even and no system or tool message is ever stored. *)
Theorem X8_history_is_made_of_exchanges :
  forall h,
    exchanges h = true ->
    (forall E m, exchanges (snd (Groq.process_message E m h)) = true)
    /\ (forall E m, exchanges (snd (smart_chat E m h)) = true)
    /\ (forall inputs,
           exchanges (snd (Groq.chat_loop inputs h)) = true
           /\ Nat.even (length (snd (Groq.chat_loop inputs h))) = true
           /\ Forall (fun m => msg_role m = user \/ msg_role m = assistant)
                     (snd (Groq.chat_loop inputs h)))
    /\ (forall inputs,
           exchanges (snd (smart_loop inputs h)) = true
           /\ Nat.even (length (snd (smart_loop inputs h))) = true
           /\ Forall (fun m => msg_role m = user \/ msg_role m = assistant)
                     (snd (smart_loop inputs h))).
Proof.
  intros h H. split; [|split; [|split]].
  - intros E m. destruct (process_message_total E m h) as (reply & h' & P & G).
    rewrite P. exact (exchanges_turn h h' m reply H G).
  - intros E m.
    destruct (chat_with_tools_total system_message json_loads py_str subscript_error
                E m h) as (reply & h' & P & G).
    rewrite P. exact (exchanges_turn h h' m reply H G).
  - intro inputs. pose proof (groq_loop_exchanges inputs h H) as X.
    split; [exact X | apply exchanges_facts; exact X].
  - intro inputs. pose proof (smart_loop_exchanges inputs h H) as X.
    split; [exact X | apply exchanges_facts; exact X].
Qed.

(** X9.  Sessions compose.  Reading the lines [a] and then the lines [b] is
    reading [a], and, unless the loop was left while reading [a], going on
    with [b] from the history reached: the calls made are those of [a]
    followed by those of [b].  Once the loop was left, what is typed
    afterwards changes nothing.  This holds for the three chat loops. *)
Theorem X9_sessions_compose :
  (forall a b h,
      Groq.chat_loop (a ++ b)%list h =
      if ended (fst (Groq.chat_loop a h)) then Groq.chat_loop a h
      else
        ({| ended := ended (fst (Groq.chat_loop b (snd (Groq.chat_loop a h))));
            turns := (turns (fst (Groq.chat_loop a h))
                      ++ turns (fst (Groq.chat_loop b (snd (Groq.chat_loop a h)))))%list |},
         snd (Groq.chat_loop b (snd (Groq.chat_loop a h)))))
  /\ (forall a b h,
         smart_loop (a ++ b)%list h =
         if ended (fst (smart_loop a h)) then smart_loop a h
         else
           ({| ended := ended (fst (smart_loop b (snd (smart_loop a h))));
               turns := (turns (fst (smart_loop a h))
                         ++ turns (fst (smart_loop b (snd (smart_loop a h)))))%list |},
            snd (smart_loop b (snd (smart_loop a h)))))
  /\ (forall a b,
         simple_loop (a ++ b)%list =
         if ended (simple_loop a) then simple_loop a
         else {| ended := ended (simple_loop b);
                 turns := (turns (simple_loop a) ++ turns (simple_loop b))%list |}).
Proof.
  split; [|split].
  - induction a as [|[ev E] a IH]; intros b h; cbn [app Groq.chat_loop].
    + simpl. destruct (Groq.chat_loop b h) as [[e t] h']. reflexivity.
    + destruct ev as [typed|]; [|reflexivity].
      destruct (in_list (lower (strip typed)) ["quit"; "exit"; "bye"; "q"]);
        [reflexivity|].
      destruct (negb (truthy (strip typed))); [apply IH|].
      destruct (Groq.process_message E (strip typed) h) as [[r|e] h'];
        rewrite (IH b h'); destruct (Groq.chat_loop a h') as [[e1 t1] h1]; simpl;
        destruct e1; reflexivity.
  - induction a as [|[ev E] a IH]; intros b h; cbn [app Smart.chat_loop].
    + simpl. destruct (smart_loop b h) as [[e t] h']. reflexivity.
    + destruct ev as [typed|]; [|reflexivity].
      destruct (in_list (lower (strip typed)) ["quit"; "exit"; "bye"; "q"]);
        [reflexivity|].
      destruct (negb (truthy (strip typed))); [apply IH|].
      destruct (smart_chat E (strip typed) h) as [[r|e] h'];
        rewrite (IH b h'); destruct (smart_loop a h') as [[e1 t1] h1]; simpl;
        destruct e1; reflexivity.
  - induction a as [|[ev E] a IH]; intros b; cbn [app Simple.chat_loop].
    + simpl. destruct (simple_loop b) as [e t]. reflexivity.
    + destruct ev as [typed|]; [|reflexivity].
      destruct (in_list (lower (strip typed)) ["quit"; "exit"; "bye"]);
        [reflexivity|].
      destruct (negb (truthy (strip typed))); [apply IH|].
      destruct (Simple.process_query siren chart question_mark bullet E (strip typed));
        rewrite (IH b); destruct (simple_loop a) as [e1 t1]; simpl;
        destruct e1; reflexivity.
Qed.

(** X10.  A chat loop hands a line to the per-turn method only after
    stripping it, and only when the stripped line is not empty and is not
    one of the loop's termination tokens: every call recorded in a session
    has such an input, whatever was typed. *)
Theorem X10_turn_inputs_are_stripped_and_real :
  (forall inputs h,
      Forall (fun ev => truthy (turn_input ev) = true
                        /\ strip (turn_input ev) = turn_input ev
                        /\ in_list (lower (turn_input ev))
                                   ["quit"; "exit"; "bye"; "q"] = false)
             (turns (fst (Groq.chat_loop inputs h))))
  /\ (forall inputs h,
         Forall (fun ev => truthy (turn_input ev) = true
                           /\ strip (turn_input ev) = turn_input ev
                           /\ in_list (lower (turn_input ev))
                                      ["quit"; "exit"; "bye"; "q"] = false)
                (turns (fst (smart_loop inputs h))))
  /\ (forall inputs,
         Forall (fun ev => truthy (turn_input ev) = true
                           /\ strip (turn_input ev) = turn_input ev
                           /\ in_list (lower (turn_input ev))
                                      ["quit"; "exit"; "bye"] = false)
                (turns (simple_loop inputs))).
Proof.
  split; [|split].
  - induction inputs as [|[ev E] rest IH]; intro h; cbn [Groq.chat_loop].
    + constructor.
    + destruct ev as [typed|]; [|constructor].
      destruct (in_list (lower (strip typed)) ["quit"; "exit"; "bye"; "q"]) eqn:Q;
        [constructor|].
      destruct (truthy (strip typed)) eqn:T; cbn [negb]; [|apply IH].
      destruct (Groq.process_message E (strip typed) h) as [[r|e] h'];
        specialize (IH h'); destruct (Groq.chat_loop rest h') as [s h''];
        constructor; try exact IH; cbn [turn_input];
        rewrite strip_idempotent; auto.
  - induction inputs as [|[ev E] rest IH]; intro h; cbn [Smart.chat_loop].
    + constructor.
    + destruct ev as [typed|]; [|constructor].
      destruct (in_list (lower (strip typed)) ["quit"; "exit"; "bye"; "q"]) eqn:Q;
        [constructor|].
      destruct (truthy (strip typed)) eqn:T; cbn [negb]; [|apply IH].
      destruct (smart_chat E (strip typed) h) as [[r|e] h'];
        specialize (IH h'); destruct (smart_loop rest h') as [s h''];
        constructor; try exact IH; cbn [turn_input];
        rewrite strip_idempotent; auto.
  - induction inputs as [|[ev E] rest IH]; cbn [Simple.chat_loop].
    + constructor.
    + destruct ev as [typed|]; [|constructor].
      destruct (in_list (lower (strip typed)) ["quit"; "exit"; "bye"]) eqn:Q;
        [constructor|].
      destruct (truthy (strip typed)) eqn:T; cbn [negb]; [|apply IH].
      destruct (Simple.process_query siren chart question_mark bullet E (strip typed));
        constructor; try exact IH; cbn [turn_input];
        rewrite strip_idempotent; auto.
Qed.

End Loops.

Lemma X8_witness :
  exchanges (snd (Groq.chat_loop
                    [(Line "alerts for California", Scenario.groq_quiet);
                     (Line "hello", Scenario.groq_engine_down);
                     (Line "weather in Sacramento", Scenario.groq_backend_down)] []))
  = true.
Proof.
  apply (X8_history_is_made_of_exchanges
           Scenario.system_message Scenario.json_loads Scenario.py_str
           Scenario.subscript_error [] eq_refl).
Defined.

(** ** What the rule-based agent sends to the engine *)

Lemma get_weather_data_truthy (E : Groq.env) (q : Groq.query_info) (data : string) :
  Groq.get_weather_data E q = Ret data -> truthy data = true.
Proof.
  unfold Groq.get_weather_data. destruct q as [state|city [lat lng]|]; simpl.
  - destruct (Groq.get_alerts E state); simpl; intros [= <-]; reflexivity.
  - destruct (Groq.get_forecast E lat lng); simpl; intros [= <-]; reflexivity.
  - intros [= <-]. reflexivity.
Qed.

(** X11.  For every utterance classified as a weather query, the text
    fetched for it (the server's answer under its heading, or the apology
    when the server failed) is never empty, so the user message sent to the
    engine is always the utterance followed by a "Current weather data:"
    block holding that text, while the turn itself is run on the bare
    utterance. *)
Theorem X11_weather_query_always_carries_a_data_block :
  forall E m h,
    Groq.is_weather_query m <> Groq.QNone ->
    exists data,
      Groq.get_weather_data E (Groq.is_weather_query m) = Ret data
      /\ truthy data = true
      /\ Groq.process_message E m h = Groq.chat_with_groq E m (Some data) h
      /\ Groq.user_content m (Some data)
         = m ++ nl ++ nl ++ "Current weather data:" ++ nl ++ data.
Proof.
  intros E m h Q.
  destruct (get_weather_data_total E (Groq.is_weather_query m)) as [data D].
  pose proof (get_weather_data_truthy E _ data D) as T.
  exists data. repeat split; auto.
  - apply process_message_tool; assumption.
  - unfold Groq.user_content. rewrite T. reflexivity.
Qed.

Lemma X11_witness :
  exists data,
    Groq.get_weather_data Scenario.groq_backend_down
                          (Groq.is_weather_query "severe texas") = Ret data
    /\ truthy data = true
    /\ Groq.process_message Scenario.groq_backend_down "severe texas" []
       = Groq.chat_with_groq Scenario.groq_backend_down "severe texas" (Some data) []
    /\ Groq.user_content "severe texas" (Some data)
       = "severe texas" ++ nl ++ nl ++ "Current weather data:" ++ nl ++ data.
Proof.
  apply (X11_weather_query_always_carries_a_data_block
           Scenario.groq_backend_down "severe texas" []).
  vm_compute. discriminate.
Defined.

(** ** Tool calls of the delegating agent *)

Section ToolCalls.
Import Smart.

Variable system_message : string.
Variable json_loads : string -> res pyval.
Variable py_str : pyval -> string.
Variable subscript_error : pyval -> string.

Local Notation call := (Smart.call_weather_function py_str subscript_error).
Local Notation run := (Smart.run_tool_call json_loads py_str subscript_error).
Local Notation chat :=
  (Smart.chat_with_tools system_message json_loads py_str subscript_error).

(** X12.  A tool name other than the two declared ones is answered with
    "Unknown weather function requested", whatever the arguments are and
    without any call to the weather server. *)
Theorem X12_unknown_tool_name :
  forall E name arguments,
    name <> "get_weather_forecast" ->
    name <> "get_weather_alerts" ->
    Smart.call_weather_function py_str subscript_error E name arguments
    = Ret "Unknown weather function requested".
Proof.
  intros E name arguments F A. unfold Smart.call_weather_function.
  apply String.eqb_neq in F. apply String.eqb_neq in A. rewrite F, A.
  reflexivity.
Qed.

Lemma not_dict_subscript (v : pyval) (key : string) :
  (forall d, v <> PDict d) ->
  subscript subscript_error v key = Raise (TypeError (subscript_error v)).
Proof. intro N. destruct v; try reflexivity. exfalso. eapply N. reflexivity. Qed.

(** X13.  Missing tool arguments never reach the weather server.  When the
    decoded arguments lack a required key the tool result is "Error getting
    weather data: " followed by the quoted name of the first key missing, in
    the order the code reads them (latitude, longitude, location_name;
    state_code, state_name), and when the arguments are not a dict it is
    that prefix followed by the interpreter's TypeError text; this holds
    under every environment, so the server's functions are not called. *)
Theorem X13_missing_arguments_are_reported :
  (forall E d,
      getitem "latitude" d = None ->
      call E "get_weather_forecast" (PDict d)
      = Ret "Error getting weather data: 'latitude'")
  /\ (forall E d lat,
         getitem "latitude" d = Some lat ->
         getitem "longitude" d = None ->
         call E "get_weather_forecast" (PDict d)
         = Ret "Error getting weather data: 'longitude'")
  /\ (forall E d lat lng,
         getitem "latitude" d = Some lat ->
         getitem "longitude" d = Some lng ->
         getitem "location_name" d = None ->
         call E "get_weather_forecast" (PDict d)
         = Ret "Error getting weather data: 'location_name'")
  /\ (forall E d,
         getitem "state_code" d = None ->
         call E "get_weather_alerts" (PDict d)
         = Ret "Error getting weather data: 'state_code'")
  /\ (forall E d code,
         getitem "state_code" d = Some code ->
         getitem "state_name" d = None ->
         call E "get_weather_alerts" (PDict d)
         = Ret "Error getting weather data: 'state_name'")
  /\ (forall E v,
         (forall d, v <> PDict d) ->
         call E "get_weather_forecast" v
         = Ret ("Error getting weather data: " ++ subscript_error v)
         /\ call E "get_weather_alerts" v
            = Ret ("Error getting weather data: " ++ subscript_error v)).
Proof.
  repeat split; intros; unfold Smart.call_weather_function;
    try change ("get_weather_alerts" =? "get_weather_forecast") with false;
    try change ("get_weather_alerts" =? "get_weather_alerts") with true;
    try change ("get_weather_forecast" =? "get_weather_forecast") with true;
    cbv iota;
    try (rewrite not_dict_subscript by assumption; reflexivity);
    cbn [subscript];
    repeat match goal with
           | H : getitem _ _ = _ |- _ => rewrite H; clear H; cbn [bind]
           end;
    reflexivity.
Qed.

Lemma run_tool_call_cases (E : env) (c : tool_call) :
  match json_loads (function_arguments c) with
  | Ret arguments =>
      exists text,
        run E c = Ret {| msg_role := tool; content := Some text;
                         tool_call_id := Some (call_id c); tool_calls := [] |}
  | Raise e => run E c = Raise e
  end.
Proof.
  unfold Smart.run_tool_call.
  destruct (json_loads (function_arguments c)) as [arguments|e]; simpl; [|reflexivity].
  destruct (call_weather_function_total py_str subscript_error E (function_name c)
                                        arguments) as [text T].
  rewrite T. simpl. eauto.
Qed.

(** X14.  Running the tool calls of a turn gives one tool message per call,
    in the order of the calls, each echoing the id of its call and holding
    a text.  It can fail only by decoding: when every argument string is
    decoded all the calls are run, and when it raises, the exception is the
    one [json.loads] raised on one of the calls. *)
Theorem X14_tool_results_follow_the_calls :
  forall E calls,
    (forall tool_results,
        for_each (run E) calls = Ret tool_results ->
        map tool_call_id tool_results = map (fun c => Some (call_id c)) calls
        /\ Forall (fun t => msg_role t = tool /\ exists text, content t = Some text)
                  tool_results)
    /\ ((forall c, In c calls ->
                   exists v, json_loads (function_arguments c) = Ret v) ->
        exists tool_results, for_each (run E) calls = Ret tool_results)
    /\ (forall e,
           for_each (run E) calls = Raise e ->
           exists c, In c calls /\ json_loads (function_arguments c) = Raise e).
Proof.
  intros E calls. induction calls as [|c calls (IH1 & IH2 & IH3)].
  - repeat split.
    + inversion H. reflexivity.
    + inversion H. constructor.
    + intros _. exists []. reflexivity.
    + discriminate.
  - pose proof (run_tool_call_cases E c) as R. cbn [for_each].
    destruct (json_loads (function_arguments c)) as [v|e0] eqn:J.
    + destruct R as [text R]. rewrite R. cbn [bind].
      destruct (for_each (run E) calls) as [ts|e1]; cbn [bind].
      * destruct (IH1 ts eq_refl) as [I F]. repeat split.
        -- inversion H. subst. simpl. rewrite I. reflexivity.
        -- inversion H. subst. constructor; [simpl; eauto | exact F].
        -- eauto.
        -- discriminate.
      * repeat split; try discriminate.
        -- intro A. destruct IH2 as [ts T]; [intros c' I; apply A; right; exact I|].
           discriminate.
        -- intros e [= <-]. destruct (IH3 e1 eq_refl) as (c' & I & J').
           exists c'. split; [right; exact I | exact J'].
    + rewrite R. cbn [bind]. repeat split; try discriminate.
      * intro A. destruct (A c (or_introl eq_refl)) as [v V]. congruence.
      * intros e [= <-]. exists c. split; [left; reflexivity | exact J].
Qed.

(** X15.  When the engine's first answer requests no tool, the turn is over
    after that single completion: neither the weather server nor a second
    completion is consulted, so two environments whose first completion is
    the same give the same reply and the same history. *)
Theorem X15_no_tool_call_no_backend_call :
  forall E E' m h,
    create_with_tools E = create_with_tools E' ->
    (forall am,
        create_with_tools E (Smart.build_messages system_message h m) = Ret am ->
        message_tool_calls am = []) ->
    chat E m h = chat E' m h.
Proof.
  intros E E' m h C N.
  destruct (create_with_tools E (Smart.build_messages system_message h m))
    as [am|e] eqn:F.
  - rewrite (chat_with_tools_direct system_message json_loads py_str subscript_error
               E m h am F (N am eq_refl)).
    rewrite C in F.
    rewrite (chat_with_tools_direct system_message json_loads py_str subscript_error
               E' m h am F (N am eq_refl)).
    reflexivity.
  - rewrite (chat_with_tools_first_raised system_message json_loads py_str
               subscript_error E m h e F).
    rewrite C in F.
    rewrite (chat_with_tools_first_raised system_message json_loads py_str
               subscript_error E' m h e F).
    reflexivity.
Qed.

End ToolCalls.

Lemma X12_witness :
  Smart.call_weather_function Scenario.py_str Scenario.subscript_error
    Scenario.smart_quiet "get_weather_radar" Scenario.california
  = Ret "Unknown weather function requested".
Proof.
  apply (X12_unknown_tool_name Scenario.py_str Scenario.subscript_error
           Scenario.smart_quiet "get_weather_radar" Scenario.california);
    discriminate.
Defined.

Lemma X13_witness :
  Smart.call_weather_function Scenario.py_str Scenario.subscript_error
    Scenario.smart_quiet "get_weather_forecast"
    (Smart.PDict [("latitude", Smart.PFloat 38.58%float);
                  ("longitude", Smart.PFloat (-121.49)%float)])
  = Ret "Error getting weather data: 'location_name'".
Proof.
  apply (proj1 (proj2 (proj2 (X13_missing_arguments_are_reported
                                Scenario.py_str Scenario.subscript_error)))
               Scenario.smart_quiet _ (Smart.PFloat 38.58%float)
               (Smart.PFloat (-121.49)%float));
    reflexivity.
Defined.

Lemma X14_witness :
  exists tool_results,
    for_each (Smart.run_tool_call Scenario.json_loads Scenario.py_str
                                  Scenario.subscript_error Scenario.smart_backend_down)
             [Scenario.alerts_call; Scenario.alerts_call]
    = Ret tool_results.
Proof.
  apply (proj1 (proj2 (X14_tool_results_follow_the_calls
                         Scenario.json_loads Scenario.py_str Scenario.subscript_error
                         Scenario.smart_backend_down
                         [Scenario.alerts_call; Scenario.alerts_call]))).
  intros c _. exists Scenario.california. reflexivity.
Defined.

Lemma X15_witness :
  Scenario.smart_chat
    {| Smart.get_alerts := fun _ => Ret "No active alerts";
       Smart.get_forecast := fun _ _ => Ret "Tonight: clear, low 52F";
       Smart.create_with_tools :=
         fun _ => Ret {| Smart.message_content := Some "Hello! How can I help?";
                         Smart.message_tool_calls := [] |};
       Smart.create := fun _ => Ret (Some "unused") |}
    "Hello! How are you doing today?" []
  = Scenario.smart_chat
      {| Smart.get_alerts := fun _ => Raise (Exception "timed out");
         Smart.get_forecast := fun _ _ => Raise (Exception "timed out");
         Smart.create_with_tools :=
           fun _ => Ret {| Smart.message_content := Some "Hello! How can I help?";
                           Smart.message_tool_calls := [] |};
         Smart.create := fun _ => Raise (Exception "Connection error.") |}
      "Hello! How are you doing today?" [].
Proof.
  apply (X15_no_tool_call_no_backend_call
           Scenario.system_message Scenario.json_loads Scenario.py_str
           Scenario.subscript_error).
  - reflexivity.
  - intros am [= <-]. reflexivity.
Defined.

(** ** [SimpleWeatherAgent] *)

Section SimpleAgent.
Import Simple.

Variables siren chart question_mark bullet : string.

Local Notation process_query := (Simple.process_query siren chart question_mark bullet).
Local Notation simple_loop := (Simple.chat_loop siren chart question_mark bullet).

Lemma parse_forecast_justified (t : string) :
  match parse_forecast t with
  | Alerts _ => False
  | Forecast xy =>
      str_in "forecast" t || str_in "weather" t = true
      /\ In xy [(38.5816, -121.4944); (37.7749, -122.4194); (40.7128, -74.0060)]%float
  | Unparsed => True
  end.
Proof.
  unfold parse_forecast.
  destruct (str_in "forecast" t || str_in "weather" t); [|exact I].
  destruct (str_in "sacramento" t); [simpl; auto|].
  destruct (str_in "san francisco" t); [simpl; auto|].
  destruct (str_in "new york" t); [simpl; auto | exact I].
Qed.

(** X16.  Whatever the query, [parse_simple_query] answers with one of
    seven results: alerts for CA, TX or NY, and then only when the query
    contains "alert" or "warning"; a forecast at one of its three
    coordinate pairs, and then only when the query contains "forecast" or
    "weather"; or nothing.  A query with none of the four words parses to
    nothing. *)
Theorem X16_simple_parse_is_justified :
  forall query,
    match parse_simple_query query with
    | Alerts state_code =>
        str_in "alert" (lower query) || str_in "warning" (lower query) = true
        /\ In state_code ["CA"; "TX"; "NY"]
    | Forecast xy =>
        str_in "forecast" (lower query) || str_in "weather" (lower query) = true
        /\ In xy [(38.5816, -121.4944); (37.7749, -122.4194); (40.7128, -74.0060)]%float
    | Unparsed => True
    end
    /\ (str_in "alert" (lower query) || str_in "warning" (lower query) = false ->
        str_in "forecast" (lower query) || str_in "weather" (lower query) = false ->
        parse_simple_query query = Unparsed).
Proof.
  intro query. pose proof (parse_forecast_justified (lower query)) as F.
  unfold parse_simple_query. split.
  - destruct (str_in "alert" (lower query) || str_in "warning" (lower query)).
    + destruct (str_in "california" (lower query) || str_in "ca" (lower query));
        [simpl; auto|].
      destruct (str_in "texas" (lower query) || str_in "tx" (lower query));
        [simpl; auto|].
      destruct (str_in "new york" (lower query) || str_in "ny" (lower query));
        [simpl; auto|].
      destruct (parse_forecast (lower query)); [destruct F | exact F | exact I].
    + destruct (parse_forecast (lower query)); [destruct F | exact F | exact I].
  - intros A W. rewrite A. unfold parse_forecast. rewrite W. reflexivity.
Qed.

Lemma X16_witness :
  parse_simple_query "Good morning" = Unparsed.
Proof.
  apply (proj2 (X16_simple_parse_is_justified "Good morning"));
    vm_compute; reflexivity.
Defined.

(** X17.  In [parse_simple_query] the state is looked for as a substring,
    California first: every query that contains "alert" or "warning" and,
    anywhere, a word containing "ca" (the word "forecast" is one, so are
    "chicago" and "america") parses to alerts for CA, whatever state it
    names. *)
Theorem X17_simple_alert_with_ca_is_california :
  forall query word,
    str_in "alert" (lower query) || str_in "warning" (lower query) = true ->
    str_in "ca" word = true ->
    str_in word (lower query) = true ->
    parse_simple_query query = Alerts "CA".
Proof.
  intros query word A C W. unfold parse_simple_query.
  rewrite A, (str_in_trans "ca" word (lower query) C W), orb_true_r.
  reflexivity.
Qed.

Lemma X17_witness :
  parse_simple_query "Any warning in the forecast for Texas?" = Alerts "CA".
Proof.
  apply (X17_simple_alert_with_ca_is_california
           "Any warning in the forecast for Texas?" "forecast");
    vm_compute; reflexivity.
Defined.

Lemma simple_process_query_total (E : env) (query : string) :
  exists reply, process_query E query = Ret reply.
Proof.
  unfold Simple.process_query.
  destruct (parse_simple_query query) as [code|[lat lng]|].
  - unfold get_weather_alerts. destruct (get_alerts E code); simpl; eauto.
  - unfold get_weather_forecast. destruct (get_forecast E lat lng); simpl; eauto.
  - eauto.
Qed.

(** X18.  [process_query] never raises.  When the weather server fails, the
    exception is caught in the getter and its text is part of the reply
    itself, under the usual heading: "Error getting alerts: ..." or "Error
    getting forecast: ...".  A session of the simple agent therefore never
    records a failed call. *)
Theorem X18_simple_agent_reports_failures_in_the_reply :
  (forall E query, exists reply, process_query E query = Ret reply)
  /\ (forall E query state_code e,
         parse_simple_query query = Alerts state_code ->
         get_alerts E state_code = Raise e ->
         process_query E query
         = Ret (siren ++ " Weather Alerts for " ++ state_code ++ ":" ++ nl ++ nl
                  ++ "Error getting alerts: " ++ exn_str e))
  /\ (forall E query lat lng e,
         parse_simple_query query = Forecast (lat, lng) ->
         get_forecast E lat lng = Raise e ->
         process_query E query
         = Ret (chart ++ " Weather Forecast:" ++ nl ++ nl
                  ++ "Error getting forecast: " ++ exn_str e))
  /\ (forall inputs,
         Forall (fun ev => exists query reply, ev = Replied query reply)
                (turns (simple_loop inputs))).
Proof.
  split; [exact simple_process_query_total|]. split; [|split].
  - intros E query code e P G. unfold Simple.process_query, get_weather_alerts.
    rewrite P, G. reflexivity.
  - intros E query lat lng e P G. unfold Simple.process_query, get_weather_forecast.
    rewrite P, G. reflexivity.
  - induction inputs as [|[ev E] rest IH]; cbn [Simple.chat_loop].
    + constructor.
    + destruct ev as [typed|]; [|constructor].
      destruct (in_list (lower (strip typed)) ["quit"; "exit"; "bye"]); [constructor|].
      destruct (negb (truthy (strip typed))); [exact IH|].
      destruct (simple_process_query_total E (strip typed)) as [reply R].
      rewrite R. constructor; [eauto | exact IH].
Qed.

End SimpleAgent.

Lemma X18_witness :
  Simple.process_query "(!)" "(#)" "(?)" "*"
    {| Simple.get_alerts := fun _ => Raise (Exception "timed out");
       Simple.get_forecast := fun _ _ => Raise (Exception "timed out") |}
    "alerts for Texas"
  = Ret ("(!) Weather Alerts for TX:" ++ nl ++ nl ++ "Error getting alerts: timed out").
Proof.
  apply (proj1 (proj2 (X18_simple_agent_reports_failures_in_the_reply
                         "(!)" "(#)" "(?)" "*"))
               _ "alerts for Texas" "TX" (Exception "timed out"));
    vm_compute; reflexivity.
Defined.

(** ** Dict displays *)

Section DictDisplay.
Context {V : Type}.

Lemma getitem_setitem (k k' : string) (v : V) (d : dict V) :
  getitem k (setitem k' v d) = if String.eqb k k' then Some v else getitem k d.
Proof.
  induction d as [|[k0 v0] d IH]; simpl.
  - destruct (String.eqb k k'); reflexivity.
  - destruct (String.eqb k' k0) eqn:E'; simpl.
    + apply String.eqb_eq in E'. subst k0.
      destruct (String.eqb k k'); reflexivity.
    + destruct (String.eqb k k0) eqn:E0; [|exact IH].
      apply String.eqb_eq in E0. subst k0.
      rewrite String.eqb_sym, E'. reflexivity.
Qed.

Lemma getitem_app (k : string) (d1 d2 : dict V) :
  getitem k (d1 ++ d2)%list
  = match getitem k d1 with Some v => Some v | None => getitem k d2 end.
Proof.
  induction d1 as [|[k0 v0] d1 IH]; simpl; [reflexivity|].
  destruct (String.eqb k k0); [reflexivity | exact IH].
Qed.

Lemma getitem_fold (k : string) (entries : list (string * V)) (d : dict V) :
  getitem k (fold_left (fun d kv => setitem (fst kv) (snd kv) d) entries d)
  = match getitem k (rev entries) with Some v => Some v | None => getitem k d end.
Proof.
  revert d; induction entries as [|[k' v] entries IH]; intro d; simpl; [reflexivity|].
  rewrite IH, getitem_app, getitem_setitem. simpl.
  destruct (getitem k (rev entries)); [reflexivity|].
  destruct (String.eqb k k'); reflexivity.
Qed.

Lemma setitem_keys (k : string) (v : V) (d : dict V) :
  map fst (setitem k v d)
  = if in_list k (map fst d) then map fst d else (map fst d ++ [k])%list.
Proof.
  unfold in_list. induction d as [|[k0 v0] d IH]; simpl; [reflexivity|].
  destruct (String.eqb k k0); simpl; [reflexivity|].
  rewrite IH. destruct (existsb (String.eqb k) (map fst d)); reflexivity.
Qed.

Lemma fold_keys_nodup (entries : list (string * V)) (d : dict V) :
  NoDup (map fst d) ->
  NoDup (map fst (fold_left (fun d kv => setitem (fst kv) (snd kv) d) entries d)).
Proof.
  revert d; induction entries as [|[k v] entries IH]; intros d N; simpl; [exact N|].
  apply IH. rewrite setitem_keys.
  destruct (in_list k (map fst d)) eqn:I; [exact N|].
  apply NoDup_app; [exact N | repeat constructor; intros [] | ].
  intros x Hx [<-|[]]. apply in_list_true in Hx. congruence.
Qed.

Lemma of_literal_getitem (k : string) (entries : list (string * V)) :
  getitem k (of_literal entries) = getitem k (rev entries).
Proof.
  unfold of_literal. rewrite getitem_fold.
  destruct (getitem k (rev entries)); reflexivity.
Qed.

Lemma of_literal_nodup (entries : list (string * V)) :
  NoDup (map fst (of_literal entries)).
Proof. unfold of_literal. apply fold_keys_nodup. constructor. Qed.

End DictDisplay.

(** X19.  A dict display keeps, for every key, the value written last: for
    every name, what [city_coords] and [state_codes] hold is what a search
    of the display from its end finds, a name the display does not list is
    absent, and no key occurs twice in either dict. *)
Theorem X19_display_keeps_the_last_value :
  (forall name,
      getitem name Groq.city_coords = getitem name (rev Groq.city_coords_literal))
  /\ (forall name,
         getitem name Groq.state_codes = getitem name (rev Groq.state_codes_literal))
  /\ NoDup (map fst Groq.city_coords)
  /\ NoDup (map fst Groq.state_codes).
Proof.
  split; [|split; [|split]].
  - intro name. exact (of_literal_getitem name Groq.city_coords_literal).
  - intro name. exact (of_literal_getitem name Groq.state_codes_literal).
  - exact (of_literal_nodup Groq.city_coords_literal).
  - exact (of_literal_nodup Groq.state_codes_literal).
Qed.

(** ** Redundant tests and the range of the region resolver *)

Section Redundancy.
Import Groq.

Lemma first_state_none (items : dict string) (t : string) :
  first_state items t = None <->
  forall name code,
    In (name, code) items ->
    str_in name t = false /\ str_in (lower code) t = false.
Proof.
  induction items as [|[n c] rest IH]; simpl.
  - split; [intros _ name code [] | reflexivity].
  - destruct (str_in n t) eqn:N.
    + split; [discriminate|]. intro H.
      destruct (H n c (or_introl eq_refl)) as [H1 _]. congruence.
    + destruct (str_in (lower c) t) eqn:C.
      * split; [discriminate|]. intro H.
        destruct (H n c (or_introl eq_refl)) as [_ H2]. congruence.
      * rewrite IH. split.
        -- intros H name code [[= <- <-]|I]; [auto | apply H; exact I].
        -- intros H name code I. apply H. right. exact I.
Qed.

(** X20.  Two tests of [is_weather_query] never change its outcome.  The
    second half of the alert condition (a weather keyword together with
    "alert" or "warning") is implied by the first, since both words are
    alert keywords; and the weather keyword "temperature" is implied by
    the keyword "temp", so the weather test is the same without it. *)
Theorem X20_redundant_keyword_tests :
  forall text,
    alert_guard text = has_alert text
    /\ has_weather text
       = any_in ["weather"; "temp"; "forecast"; "rain"; "snow"; "sunny";
                 "cloudy"; "hot"; "cold"; "storm"] (lower text).
Proof.
  intro text. split; [apply alert_guard_has_alert|].
  unfold has_weather, weather_keywords, any_in. cbn [existsb].
  destruct (str_in "temperature" (lower text)) eqn:T; [|reflexivity].
  rewrite (str_in_app_l "temp" "erature" (lower text) T).
  destruct (str_in "weather" (lower text)); reflexivity.
Qed.

(** X21.  [extract_state_from_text] returns nothing exactly when neither a
    state name nor a lower-cased state code of the table occurs in the
    lower-cased utterance; a code it returns is always one of the codes of
    the table, two letters long. *)
Theorem X21_region_resolver_range :
  forall text,
    (extract_state_from_text text = None <->
     forall name code,
       In (name, code) state_codes ->
       str_in name (lower text) = false /\ str_in (lower code) (lower text) = false)
    /\ (forall code,
           extract_state_from_text text = Some code ->
           In code (map snd state_codes) /\ String.length code = 2).
Proof.
  intro text. split; [apply first_state_none|].
  intros code H. apply first_state_in in H. split; [exact H|].
  assert (A : forallb (fun c => Nat.eqb (String.length c) 2) (map snd state_codes) = true)
    by (vm_compute; reflexivity).
  rewrite forallb_forall in A. apply Nat.eqb_eq, A, H.
Qed.

Lemma X21_witness :
  In "TX" (map snd state_codes) /\ String.length "TX" = 2.
Proof.
  apply (proj2 (X21_region_resolver_range "severe texas")).
  vm_compute. reflexivity.
Defined.

End Redundancy.
